(** * MMM-GeminiWaveform: a shallow embedding of the module and its node helper

    The repository has two JavaScript programs:

    - [node_helper.js]: the helper that supervises the Python backend and
      keeps a WebSocket bridge to it (module [NodeHelper] below);
    - [MMM-GeminiWaveform.js]: the browser module that smooths the amplitude
      and draws the waveform on a canvas (module [Waveform] below).

    JavaScript numbers are modelled by [num]: the real numbers extended with
    the two infinities and NaN.  Rounding and overflow of binary64 are not
    modelled: a finite result is the exact real.  The zero of [num] stands
    for JavaScript's [+0] (the code never produces [-0] as a divisor). *)

From Stdlib Require Import Reals Lra ZArith List String Bool Lia.
Import ListNotations.

(* ================================================================= *)
(** ** JavaScript numbers *)

Module Num.

Local Open Scope R_scope.

Inductive num : Type :=
| Fin (r : R)
| PInf
| NInf
| NaN.

Definition isFinite (a : num) : Prop :=
  match a with Fin _ => True | _ => False end.

Definition neg (a : num) : num :=
  match a with
  | Fin x => Fin (- x)
  | PInf => NInf
  | NInf => PInf
  | NaN => NaN
  end.

Definition add (a b : num) : num :=
  match a, b with
  | NaN, _ | _, NaN => NaN
  | Fin x, Fin y => Fin (x + y)
  | PInf, NInf | NInf, PInf => NaN
  | PInf, _ | _, PInf => PInf
  | NInf, _ | _, NInf => NInf
  end.

Definition sub (a b : num) : num := add a (neg b).

(** [inf * x] for a finite [x]: the sign of [x] decides, and
    [Infinity * 0] is NaN. *)
Definition scale_inf (positive : bool) (x : R) : num :=
  if Rlt_dec 0 x then (if positive then PInf else NInf)
  else if Rlt_dec x 0 then (if positive then NInf else PInf)
  else NaN.

Definition mul (a b : num) : num :=
  match a, b with
  | NaN, _ | _, NaN => NaN
  | Fin x, Fin y => Fin (x * y)
  | PInf, Fin y | Fin y, PInf => scale_inf true y
  | NInf, Fin y | Fin y, NInf => scale_inf false y
  | PInf, PInf | NInf, NInf => PInf
  | PInf, NInf | NInf, PInf => NInf
  end.

(** Division: [x / 0] is [+-Infinity] by the sign of [x] and [0 / 0] is
    NaN; a finite number over an infinity is [0]. *)
Definition div (a b : num) : num :=
  match a, b with
  | NaN, _ | _, NaN => NaN
  | Fin x, Fin y => if Req_dec_T y 0 then scale_inf true x else Fin (x / y)
  | Fin _, PInf | Fin _, NInf => Fin 0
  | PInf, Fin y => if Rlt_dec y 0 then NInf else PInf
  | NInf, Fin y => if Rlt_dec y 0 then PInf else NInf
  | _, _ => NaN
  end.

(** [a > b]; every comparison with NaN is false. *)
Definition gt (a b : num) : bool :=
  match a, b with
  | NaN, _ | _, NaN => false
  | Fin x, Fin y => if Rlt_dec y x then true else false
  | PInf, PInf => false
  | PInf, _ => true
  | _, PInf => false
  | NInf, _ => false
  | Fin _, NInf => true
  end.

(** [Math.max] of two arguments: NaN if either is NaN. *)
Definition max (a b : num) : num :=
  match a, b with
  | NaN, _ | _, NaN => NaN
  | _, _ => if gt b a then b else a
  end.

(** [Math.sin]: NaN outside the finite numbers. *)
Definition sin (a : num) : num :=
  match a with
  | Fin x => Fin (Rtrigo_def.sin x)
  | _ => NaN
  end.

(** [Math.PI]. *)
Definition PI : num := Fin Rtrigo1.PI.

(** A non-negative integer (a loop index, a canvas size) as a number. *)
Definition ofNat (n : nat) : num := Fin (INR n).

End Num.

Export Num(num, Fin, PInf, NInf, NaN).

Declare Scope num_scope.
Delimit Scope num_scope with num.
Bind Scope num_scope with num.
Infix "+" := Num.add : num_scope.
Infix "-" := Num.sub : num_scope.
Infix "*" := Num.mul : num_scope.
Infix "/" := Num.div : num_scope.

(* ================================================================= *)
(** ** JavaScript values exchanged on the wire *)

Module Js.

Local Open Scope string_scope.

(** What [JSON.parse] can return, and [undefined] for a property that an
    object does not have. *)
#[local] Set Warnings "-register-all".
Inductive value : Type :=
| VUndefined
| VNull
| VBool (b : bool)
| VNum (n : num)
| VStr (s : string)
| VArr (items : list value)
| VObj (fields : list (string * value)).

Fixpoint lookup (k : string) (fields : list (string * value)) : value :=
  match fields with
  | [] => VUndefined
  | (k', v) :: rest => if String.eqb k k' then v else lookup k rest
  end.

(** A property read [v.k] for a key that no prototype defines ("type",
    "data", "amplitude", "phase"): a TypeError ([None]) on [null] and
    [undefined], the own property of an object, [undefined] otherwise. *)
Definition getProp (v : value) (k : string) : option value :=
  match v with
  | VUndefined | VNull => None
  | VObj fields => Some (lookup k fields)
  | _ => Some VUndefined
  end.

(** [v === "s"] for a string literal. *)
Definition isString (v : value) (s : string) : bool :=
  match v with
  | VStr s' => String.eqb s' s
  | _ => false
  end.

End Js.

Export Js(value, VUndefined, VNull, VBool, VNum, VStr, VArr, VObj).

(* ================================================================= *)
(** ** node_helper.js *)

Module NodeHelper.

Local Open Scope string_scope.
Local Open Scope Z_scope.

(** *** The helper object and the host it runs in *)

(** The CONFIG payload, with the fields the helper reads.  [videoMode] is
    the empty string when the field is missing (both are falsy for [||]);
    [cameraIndex] is [None] when it is null or undefined (for [??]);
    [pythonPort] is the port as the template literal prints it. *)
Record Config : Type := {
  pythonHost : string;
  pythonPort : string;
  updateInterval : value;
  animationSpeed : value;
  videoMode : string;
  cameraIndex : option Z
}.

(** The fields [start] gives the helper.  Sockets, child processes and
    timers are named by the number the host gave them. *)
Record helper : Type := {
  config : option Config;
  ws : option nat;
  pythonProcess : option nat;
  reconnectTimer : option nat;
  reconnectAttempts : Z
}.

Inductive readyState : Type := CONNECTING | OPEN | CLOSING | CLOSED.

(** The two closures handed to [setTimeout]. *)
Inductive callback : Type :=
| Reconnect   (* () => this.connectWebSocket() *)
| Relaunch.   (* () => if (this.config) this.startPythonBackend() *)

(** What the helper can see of Node: the two files it tests with
    [fs.existsSync], the URL check of the [WebSocket] constructor,
    [JSON.parse] ([None] when it throws), the sockets with their
    [readyState], the pending timers and the running children. *)
Record host : Type := {
  envFile : bool;
  venvPython : bool;
  urlOk : string -> bool;
  jsonParse : string -> option value;
  sockets : list (nat * readyState);
  timers : list (nat * callback);
  children : list nat;
  nextId : nat
}.

(** What the helper does to the outside, in order. *)
Inductive action : Type :=
| Log (msg : string)
| LogError (msg : string)
| Notify (name : string) (payload : value)
| Spawn (pid : nat) (exe : string) (mode : string) (camera : Z)
| Kill (pid : nat)
| SocketNew (id : nat) (url : string)
| SocketSend (id : nat) (msg : value)
| SocketClose (id : nat)
| TimerSet (id : nat) (cb : callback) (delay : Z)
| TimerClear (id : nat)
| Uncaught.

Record sys : Type := {
  me : helper;
  rt : host;
  trace : list action
}.

(** *** A state and exception monad for the method bodies *)

Inductive exn : Type := TypeError | SyntaxError | SocketNotOpen.

Inductive result (A : Type) : Type :=
| Ok (a : A)
| Threw (e : exn).
Arguments Ok {A} a.
Arguments Threw {A} e.

Definition M (A : Type) : Type := sys -> result A * sys.

Definition ret {A} (a : A) : M A := fun s => (Ok a, s).

Definition bind {A B} (m : M A) (k : A -> M B) : M B :=
  fun s =>
    match m s with
    | (Ok a, s') => k a s'
    | (Threw e, s') => (Threw e, s')
    end.

Definition throw {A} (e : exn) : M A := fun s => (Threw e, s).

(** try { body } catch (error) { handler } *)
Definition tryCatch {A} (body : M A) (handler : exn -> M A) : M A :=
  fun s =>
    match body s with
    | (Ok a, s') => (Ok a, s')
    | (Threw e, s') => handler e s'
    end.

Notation "x <- m ;; k" := (bind m (fun x => k))
  (at level 61, m at next level, right associativity).
Notation "m ;; k" := (bind m (fun _ => k))
  (at level 61, right associativity).

Definition getMe : M helper := fun s => (Ok (me s), s).
Definition getRt : M host := fun s => (Ok (rt s), s).

Definition setMe (h : helper) : M unit :=
  fun s => (Ok tt, {| me := h; rt := rt s; trace := trace s |}).
Definition setRt (r : host) : M unit :=
  fun s => (Ok tt, {| me := me s; rt := r; trace := trace s |}).
Definition emit (a : action) : M unit :=
  fun s => (Ok tt, {| me := me s; rt := rt s; trace := trace s ++ [a] |}).

Definition log (msg : string) : M unit := emit (Log msg).
Definition logError (msg : string) : M unit := emit (LogError msg).
Definition sendSocketNotification (name : string) (payload : value) : M unit :=
  emit (Notify name payload).

(** Assignments to one field of [this]. *)
Definition setConfig (c : option Config) : M unit :=
  h <- getMe ;;
  setMe {| config := c; ws := ws h; pythonProcess := pythonProcess h;
           reconnectTimer := reconnectTimer h;
           reconnectAttempts := reconnectAttempts h |}.
Definition setWs (w : option nat) : M unit :=
  h <- getMe ;;
  setMe {| config := config h; ws := w; pythonProcess := pythonProcess h;
           reconnectTimer := reconnectTimer h;
           reconnectAttempts := reconnectAttempts h |}.
Definition setPythonProcess (p : option nat) : M unit :=
  h <- getMe ;;
  setMe {| config := config h; ws := ws h; pythonProcess := p;
           reconnectTimer := reconnectTimer h;
           reconnectAttempts := reconnectAttempts h |}.
Definition setReconnectTimer (t : option nat) : M unit :=
  h <- getMe ;;
  setMe {| config := config h; ws := ws h; pythonProcess := pythonProcess h;
           reconnectTimer := t;
           reconnectAttempts := reconnectAttempts h |}.
Definition setReconnectAttempts (n : Z) : M unit :=
  h <- getMe ;;
  setMe {| config := config h; ws := ws h; pythonProcess := pythonProcess h;
           reconnectTimer := reconnectTimer h;
           reconnectAttempts := n |}.

(** [this.config.f]: a TypeError while [this.config] is null. *)
Definition theConfig : M Config :=
  h <- getMe ;;
  match config h with
  | Some c => ret c
  | None => throw TypeError
  end.

(** *** The host's primitives *)

Definition withSockets (r : host) (l : list (nat * readyState)) : host :=
  {| envFile := envFile r; venvPython := venvPython r; urlOk := urlOk r;
     jsonParse := jsonParse r; sockets := l; timers := timers r;
     children := children r; nextId := nextId r |}.
Definition withTimers (r : host) (l : list (nat * callback)) : host :=
  {| envFile := envFile r; venvPython := venvPython r; urlOk := urlOk r;
     jsonParse := jsonParse r; sockets := sockets r; timers := l;
     children := children r; nextId := nextId r |}.
Definition withChildren (r : host) (l : list nat) : host :=
  {| envFile := envFile r; venvPython := venvPython r; urlOk := urlOk r;
     jsonParse := jsonParse r; sockets := sockets r; timers := timers r;
     children := l; nextId := nextId r |}.
Definition withFiles (r : host) (env venv : bool) : host :=
  {| envFile := env; venvPython := venv; urlOk := urlOk r;
     jsonParse := jsonParse r; sockets := sockets r; timers := timers r;
     children := children r; nextId := nextId r |}.
Definition bump (r : host) : host :=
  {| envFile := envFile r; venvPython := venvPython r; urlOk := urlOk r;
     jsonParse := jsonParse r; sockets := sockets r; timers := timers r;
     children := children r; nextId := S (nextId r) |}.

Definition fresh : M nat :=
  r <- getRt ;; setRt (bump r) ;; ret (nextId r).

Fixpoint stateOf (id : nat) (l : list (nat * readyState)) : option readyState :=
  match l with
  | [] => None
  | (i, st) :: rest => if Nat.eqb i id then Some st else stateOf id rest
  end.

Fixpoint setState (id : nat) (st : readyState) (l : list (nat * readyState))
  : list (nat * readyState) :=
  match l with
  | [] => []
  | (i, old) :: rest =>
      if Nat.eqb i id then (i, st) :: rest else (i, old) :: setState id st rest
  end.

Fixpoint pending (id : nat) (l : list (nat * callback)) : option callback :=
  match l with
  | [] => None
  | (i, cb) :: rest => if Nat.eqb i id then Some cb else pending id rest
  end.

Definition dropTimer (id : nat) (l : list (nat * callback)) : list (nat * callback) :=
  filter (fun p => negb (Nat.eqb (fst p) id)) l.

Definition setTimeout (cb : callback) (delay : Z) : M nat :=
  id <- fresh ;;
  r <- getRt ;;
  setRt (withTimers r (timers r ++ [(id, cb)])) ;;
  emit (TimerSet id cb delay) ;;
  ret id.

Definition clearTimeout (id : nat) : M unit :=
  r <- getRt ;;
  setRt (withTimers r (dropTimer id (timers r))) ;;
  emit (TimerClear id).

Definition spawn (exe mode : string) (camera : Z) : M nat :=
  pid <- fresh ;;
  r <- getRt ;;
  setRt (withChildren r (children r ++ [pid])) ;;
  emit (Spawn pid exe mode camera) ;;
  ret pid.

(** [child.kill()] sends the signal; the child is gone when its close
    event arrives. *)
Definition kill (pid : nat) : M unit := emit (Kill pid).

(** [new WebSocket(url)] throws on a URL it cannot parse. *)
Definition newWebSocket (url : string) : M nat :=
  r <- getRt ;;
  if urlOk r url then
    id <- fresh ;;
    r' <- getRt ;;
    setRt (withSockets r' (sockets r' ++ [(id, CONNECTING)])) ;;
    emit (SocketNew id url) ;;
    ret id
  else throw SyntaxError.

(** [ws.send]: throws while the socket is still connecting, is dropped
    once it is closing or closed. *)
Definition socketSend (id : nat) (msg : value) : M unit :=
  r <- getRt ;;
  match stateOf id (sockets r) with
  | Some OPEN => emit (SocketSend id msg)
  | Some CONNECTING => throw SocketNotOpen
  | _ => ret tt
  end.

Definition socketClose (id : nat) : M unit :=
  r <- getRt ;;
  match stateOf id (sockets r) with
  | Some CONNECTING | Some OPEN =>
      setRt (withSockets r (setState id CLOSING (sockets r)))
  | _ => ret tt
  end ;;
  emit (SocketClose id).

(** *** The methods of the helper *)

Definition start : M unit :=
  log "Starting node helper for: " ;;
  setMe {| config := None; ws := None; pythonProcess := None;
           reconnectTimer := None; reconnectAttempts := 0 |}.

Definition pythonPath : string := "python-backend/venv/bin/python".

Definition startPythonBackend : M unit :=
  h <- getMe ;;
  match pythonProcess h with
  | Some _ => ret tt                       (* Already running *)
  | None =>
      r <- getRt ;;
      let pythonExecutable := if venvPython r then pythonPath else "python3" in
      if negb (envFile r) then
        logError "ERROR: Missing .env file with GEMINI_API_KEY in python-backend directory!" ;;
        logError "Create python-backend/.env with: GEMINI_API_KEY=your_api_key_here"
      else
        log "Starting Python backend: " ;;
        c <- theConfig ;;
        pid <- spawn pythonExecutable
                 (if String.eqb (videoMode c) "" then "camera" else videoMode c)
                 (match cameraIndex c with Some i => i | None => 0 end) ;;
        setPythonProcess (Some pid)
  end.

(** this.pythonProcess.on("close", (code) => ...) *)
Definition onChildClose (code : Z) : M unit :=
  log "Python process exited with code " ;;
  setPythonProcess None ;;
  _ <- setTimeout Relaunch 5000 ;;
  ret tt.

(** The body of the timer that [onChildClose] sets. *)
Definition relaunch : M unit :=
  h <- getMe ;;
  match config h with
  | Some _ => startPythonBackend
  | None => ret tt
  end.

(** [Math.min(1000 * Math.pow(2, attempts), 30000)].  The counter is a
    non-negative integer, for which the power of two is the integer one
    (past the range of binary64 the product is [Infinity] and the minimum
    is 30000 as well). *)
Definition backoff (attempts : Z) : Z := Z.min (1000 * 2 ^ attempts) 30000.

Definition scheduleReconnect : M unit :=
  h <- getMe ;;
  match reconnectTimer h with
  | Some t => clearTimeout t
  | None => ret tt
  end ;;
  setReconnectAttempts (reconnectAttempts h + 1) ;;
  let delay := backoff (reconnectAttempts h + 1) in
  log "Scheduling reconnect in " ;;
  t <- setTimeout Reconnect delay ;;
  setReconnectTimer (Some t).

Definition isOpen (r : host) (w : option nat) : bool :=
  match w with
  | Some id => match stateOf id (sockets r) with Some OPEN => true | _ => false end
  | None => false
  end.

Definition connectWebSocket : M unit :=
  h <- getMe ;;
  r <- getRt ;;
  if isOpen r (ws h) then ret tt           (* Already connected *)
  else
    c <- theConfig ;;
    let wsUrl := "ws://" ++ pythonHost c ++ ":" ++ pythonPort c in
    log "Connecting to WebSocket: " ;;
    tryCatch
      (id <- newWebSocket wsUrl ;;
       setWs (Some id))
      (fun _ =>
         logError "Failed to create WebSocket:" ;;
         scheduleReconnect).

Definition connectionStatus (connected : bool) : value :=
  VObj [("connected", VBool connected)].

(** this.ws.on("open", () => ...) *)
Definition onOpen : M unit :=
  log "WebSocket connected" ;;
  setReconnectAttempts 0 ;;
  sendSocketNotification "CONNECTION_STATUS" (connectionStatus true) ;;
  h <- getMe ;;
  match ws h with
  | None => throw TypeError
  | Some id =>
      c <- theConfig ;;
      socketSend id
        (VObj [("type", VStr "config");
               ("data", VObj [("updateInterval", updateInterval c);
                              ("animationSpeed", animationSpeed c)])])
  end.

(** this.ws.on("message", (data) => ...) *)
Definition onMessage (data : string) : M unit :=
  tryCatch
    (r <- getRt ;;
     match jsonParse r data with
     | None => throw SyntaxError
     | Some message =>
         match Js.getProp message "type" with
         | None => throw TypeError
         | Some ty =>
             if Js.isString ty "waveform" then
               match Js.getProp message "data" with
               | None => throw TypeError
               | Some d => sendSocketNotification "WAVEFORM_DATA" d
               end
             else ret tt
         end
     end)
    (fun _ => logError "Error parsing WebSocket message:").

(** this.ws.on("close", () => ...) *)
Definition onClose : M unit :=
  log "WebSocket disconnected" ;;
  sendSocketNotification "CONNECTION_STATUS" (connectionStatus false) ;;
  scheduleReconnect.

(** this.ws.on("error", (error) => ...) *)
Definition onError : M unit :=
  logError "WebSocket error:" ;;
  sendSocketNotification "CONNECTION_STATUS" (connectionStatus false).

Definition socketNotificationReceived (notification : string) (payload : Config)
  : M unit :=
  if String.eqb notification "CONFIG" then
    setConfig (Some payload) ;;
    startPythonBackend ;;
    connectWebSocket
  else ret tt.

Definition stop : M unit :=
  log "Stopping node helper for: " ;;
  h <- getMe ;;
  match reconnectTimer h with
  | Some t => clearTimeout t ;; setReconnectTimer None
  | None => ret tt
  end ;;
  match ws h with
  | Some id => socketClose id ;; setWs None
  | None => ret tt
  end ;;
  match pythonProcess h with
  | Some p => kill p ;; setPythonProcess None
  | None => ret tt
  end.

(** *** The event loop *)

(** What Node and MagicMirror can deliver to the helper. *)
Inductive event : Type :=
| EvStart
| EvStop
| EvSocketNotification (notification : string) (payload : Config)
| EvChildClose (pid : nat) (code : Z)
| EvTimer (id : nat)
| EvWsOpen (id : nat)
| EvWsMessage (id : nat) (data : string)
| EvWsClose (id : nat)
| EvWsError (id : nat)
| EvFiles (env venv : bool).

(** An event can only come from something that exists: a running child,
    a pending timer, a socket in the right state. *)
Definition enabled (r : host) (e : event) : bool :=
  match e with
  | EvChildClose pid _ => existsb (Nat.eqb pid) (children r)
  | EvTimer id => match pending id (timers r) with Some _ => true | None => false end
  | EvWsOpen id =>
      match stateOf id (sockets r) with Some CONNECTING => true | _ => false end
  | EvWsMessage id _ =>
      match stateOf id (sockets r) with Some OPEN | Some CLOSING => true | _ => false end
  | EvWsClose id | EvWsError id =>
      match stateOf id (sockets r) with Some CLOSED | None => false | _ => true end
  | _ => true
  end.

(** What the host changes before it calls the handler. *)
Definition arrive (r : host) (e : event) : host :=
  match e with
  | EvChildClose pid _ =>
      withChildren r (filter (fun p => negb (Nat.eqb p pid)) (children r))
  | EvTimer id => withTimers r (dropTimer id (timers r))
  | EvWsOpen id => withSockets r (setState id OPEN (sockets r))
  | EvWsClose id => withSockets r (setState id CLOSED (sockets r))
  | EvFiles env venv => withFiles r env venv
  | _ => r
  end.

Definition handler (r : host) (e : event) : M unit :=
  match e with
  | EvStart => start
  | EvStop => stop
  | EvSocketNotification n p => socketNotificationReceived n p
  | EvChildClose _ code => onChildClose code
  | EvTimer id =>
      match pending id (timers r) with
      | Some Reconnect => connectWebSocket
      | Some Relaunch => relaunch
      | None => ret tt
      end
  | EvWsOpen _ => onOpen
  | EvWsMessage _ data => onMessage data
  | EvWsClose _ => onClose
  | EvWsError _ => onError
  | EvFiles _ _ => ret tt
  end.

(** An exception that leaves a handler is reported and the loop goes on. *)
Definition dispatch (m : M unit) (s : sys) : sys :=
  match m s with
  | (Ok _, s') => s'
  | (Threw _, s') =>
      {| me := me s'; rt := rt s'; trace := trace s' ++ [Uncaught] |}
  end.

Definition step (s : sys) (e : event) : option sys :=
  if enabled (rt s) e then
    Some (dispatch (handler (rt s) e)
            {| me := me s; rt := arrive (rt s) e; trace := trace s |})
  else None.

Fixpoint run (es : list event) (s : sys) : option sys :=
  match es with
  | [] => Some s
  | e :: rest =>
      match step s e with
      | Some s' => run rest s'
      | None => None
      end
  end.

(** The helper before [start], in a host with nothing running. *)
Definition boot (env venv : bool) (okUrl : string -> bool)
           (parse : string -> option value) : sys :=
  {| me := {| config := None; ws := None; pythonProcess := None;
              reconnectTimer := None; reconnectAttempts := 0 |};
     rt := {| envFile := env; venvPython := venv; urlOk := okUrl;
              jsonParse := parse; sockets := []; timers := [];
              children := []; nextId := 1 |};
     trace := [] |}.

(** *** Reading the trace *)

Definition reconnectDelay (a : action) : option Z :=
  match a with
  | TimerSet _ Reconnect d => Some d
  | _ => None
  end.

(** The delays of the reconnect timers set, in order. *)
Fixpoint reconnectDelays (tr : list action) : list Z :=
  match tr with
  | [] => []
  | a :: rest =>
      match reconnectDelay a with
      | Some d => d :: reconnectDelays rest
      | None => reconnectDelays rest
      end
  end.

Definition isSpawn (a : action) : bool :=
  match a with Spawn _ _ _ _ => true | _ => false end.
Definition isLogError (a : action) : bool :=
  match a with LogError _ => true | _ => false end.
Definition isTimerSet (a : action) : bool :=
  match a with TimerSet _ _ _ => true | _ => false end.
Definition isReconnectSet (a : action) : bool :=
  match a with TimerSet _ Reconnect _ => true | _ => false end.
Definition isSocketClose (a : action) : bool :=
  match a with SocketClose _ => true | _ => false end.
Definition isDisconnected (a : action) : bool :=
  match a with
  | Notify "CONNECTION_STATUS" (VObj [("connected", VBool false)]) => true
  | _ => false
  end.

Definition count (p : action -> bool) (tr : list action) : nat :=
  List.length (filter p tr).

(** *** What a method emits, and the reconnect counter along a run *)

(** The actions a computation adds to the trace. *)
Definition emitted {A} (m : M A) (s : sys) : list action :=
  skipn (List.length (trace s)) (trace (snd (m s))).

(** The frame [data] is JSON text of an object whose [type] is the string
    "waveform" and whose [data] is [d]. *)
Definition waveformFrame (r : host) (data : string) (d : value) : Prop :=
  exists message,
    jsonParse r data = Some message /\
    Js.getProp message "type" = Some (VStr "waveform") /\
    Js.getProp message "data" = Some d.

(** Every event but the two that reset the counter: [start] and the open
    of a socket. *)
Definition failure (e : event) : bool :=
  match e with
  | EvStart | EvWsOpen _ => false
  | _ => true
  end.

(** From [s] to [s'] the counter went up by [n] and [n] reconnect timers
    were set, each with the delay of its attempt. *)
Definition advances (n : nat) (s s' : sys) : Prop :=
  reconnectAttempts (me s') = reconnectAttempts (me s) + Z.of_nat n /\
  reconnectDelays (trace s') =
    (reconnectDelays (trace s)
     ++ map (fun k => backoff (reconnectAttempts (me s) + Z.of_nat k))
          (seq 1 n))%list.

Definition counting {A} (m : M A) : Prop :=
  forall s, exists n, advances n s (snd (m s)).

(** The defaults of the module, as the CONFIG payload carries them. *)
Definition defaults : Config :=
  {| pythonHost := "localhost"; pythonPort := "8765";
     updateInterval := VNum (Fin 16); animationSpeed := VNum (Fin 0.35);
     videoMode := "camera"; cameraIndex := Some 0 |}.

(** The two lines [startPythonBackend] writes when the credential file is
    missing. *)
Definition missingEnvLines : list action :=
  [LogError "ERROR: Missing .env file with GEMINI_API_KEY in python-backend directory!";
   LogError "Create python-backend/.env with: GEMINI_API_KEY=your_api_key_here"].

(** A host where the credential file is there, every URL is accepted and
    no frame parses; and a run in it: CONFIG, then six connections that
    all fail. *)
Definition sampleBoot : sys :=
  boot true false (fun _ => true) (fun _ => None).

(** The same host without the credential file. *)
Definition sampleNoEnv : sys :=
  boot false false (fun _ => true) (fun _ => None).

Definition sampleFailures : list event :=
  [EvSocketNotification "CONFIG" defaults;
   EvWsError 2; EvWsClose 2; EvTimer 3; EvWsClose 4; EvTimer 5;
   EvWsClose 6; EvTimer 7; EvWsClose 8; EvTimer 9; EvWsClose 10;
   EvTimer 11; EvWsClose 12].

End NodeHelper.

(* ================================================================= *)
(** ** MMM-GeminiWaveform.js *)

Module Waveform.

Local Open Scope string_scope.
Local Open Scope num_scope.

(** The module's config, with the fields the module reads.  The canvas
    stores its width and height as unsigned integers. *)
Record Config : Type := {
  width : nat;
  height : nat;
  idleAmplitude : num;
  animationSpeed : num;
  showDebug : bool
}.

Record Canvas : Type := {
  canvasWidth : nat;
  canvasHeight : nat
}.

(** The fields [start] gives the module.  [ctx] says whether the 2d
    context of the canvas is there. *)
Record module : Type := {
  canvas : option Canvas;
  ctx : bool;
  animationFrame : option nat;
  connected : bool;
  wavePhase : num;
  currentAmplitude : num;
  targetAmplitude : num;
  lastDataTime : Z
}.

(** The payload of WAVEFORM_DATA as [updateWaveformData] reads it: the
    two properties [amplitude] and [phase], each a number or undefined.
    On [null] and [undefined] the property read throws. *)
Inductive payload : Type :=
| Nullish
| Fields (amplitude phase : option num).

Inductive notification : Type :=
| WAVEFORM_DATA (data : payload)
| CONNECTION_STATUS (isConnected : bool)
| Other (name : string).

Record point : Type := { x : num; y : num }.

(** The calls on the drawing context that put something on the canvas,
    with the values the code passes (what the canvas does with a line
    width or a coordinate that is not finite is the browser's business). *)
Inductive drawcmd : Type :=
| ClearRect (w h : nat)
| Stroke (glow : bool) (lineWidth : num) (path : list point)
| FillArc (center : point) (radius : num).

Inductive output : Type :=
| SendConfig
| RequestAnimationFrame (handle : nat)
| CancelAnimationFrame (handle : nat)
| Draw (c : drawcmd)
| LogError (msg : string)
| Throws.

Definition setAnimationFrame (m : module) (f : option nat) : module :=
  {| canvas := canvas m; ctx := ctx m; animationFrame := f;
     connected := connected m; wavePhase := wavePhase m;
     currentAmplitude := currentAmplitude m;
     targetAmplitude := targetAmplitude m; lastDataTime := lastDataTime m |}.

(** *** updateWaveformData *)

Definition updateWaveformData (now : Z) (data : payload) (m : module)
  : module * list output :=
  match data with
  | Nullish => (m, [Throws])
  | Fields amplitude phase =>
      let m1 :=
        match amplitude with
        | Some a =>
            {| canvas := canvas m; ctx := ctx m;
               animationFrame := animationFrame m; connected := connected m;
               wavePhase := wavePhase m;
               currentAmplitude := currentAmplitude m;
               targetAmplitude := a; lastDataTime := now |}
        | None => m
        end in
      let m2 :=
        match phase with
        | Some p =>
            {| canvas := canvas m1; ctx := ctx m1;
               animationFrame := animationFrame m1; connected := connected m1;
               wavePhase := p;
               currentAmplitude := currentAmplitude m1;
               targetAmplitude := targetAmplitude m1;
               lastDataTime := lastDataTime m1 |}
        | None => m1
        end in
      (m2, [])
  end.

(** *** drawWaveform *)

Definition numPoints (w : nat) : nat := Nat.min 200 w.

Definition margin (amplitude : num) : num :=
  Num.max (Fin 12) (Fin 6 + amplitude * Fin 6).

(** The body of the loop that fills [points], at index [i]. *)
Definition wavePoint (phase : num) (w h : nat) (amplitude : num) (i : nat)
  : point :=
  let t := Num.ofNat i / (Num.ofNat (numPoints w) - Fin 1) in
  let x := margin amplitude + t * (Num.ofNat w - Fin 2 * margin amplitude) in
  let w1 := Num.sin (phase + t * Fin 4 * Num.PI) * Fin 0.35 in
  let w2 := Num.sin (phase * Fin 1.7 + t * Fin 7 * Num.PI) * Fin 0.22 in
  let w3 := Num.sin (phase * Fin 0.8 + t * Fin 2 * Num.PI) * Fin 0.5 in
  let wave := (w1 + w2 + w3) * amplitude in
  let y := Num.ofNat h / Fin 2 + wave * Num.ofNat h * Fin 0.28 in
  {| x := x; y := y |}.

Definition wavePoints (phase : num) (w h : nat) (amplitude : num) : list point :=
  map (wavePoint phase w h amplitude) (seq 0 (numPoints w)).

Definition lineWidth (amplitude : num) : num := Fin 6 + amplitude * Fin 6.

(** [drawWaveform(amplitude)] on a canvas of [w] by [h]: the commands it
    issues, or [None] for the TypeError of [points[0].x] when there is
    no point. *)
Definition drawWaveform (phase : num) (w h : nat) (amplitude : num)
  : option (list drawcmd) :=
  let points := wavePoints phase w h amplitude in
  match points with
  | [] => None
  | first :: _ =>
      let glow :=
        if Num.gt amplitude (Fin 0.25)
        then [Stroke true (lineWidth amplitude * Fin 2) points]
        else [] in
      let capRadius := lineWidth amplitude / Fin 2 in
      Some (glow ++
            [Stroke false (lineWidth amplitude) points;
             FillArc first capRadius;
             FillArc (last points first) capRadius])%list
  end.

(** *** animateWaveform *)

(** One run of [animateWaveform] at time [now]; [handle] is what
    [requestAnimationFrame] returns. *)
Definition animateWaveform (cfg : Config) (now : Z) (handle : nat) (m : module)
  : module * list output :=
  match ctx m, canvas m with
  | true, Some cv =>
      let current :=
        currentAmplitude m
        + (targetAmplitude m - currentAmplitude m) * Fin 0.18 in
      let idle := Z.ltb 250 (now - lastDataTime m) in
      let idleAmp :=
        idleAmplitude cfg
        * (Fin 0.6 + Fin 0.4 * Num.sin (wavePhase m * Fin 0.6)) in
      let effectiveAmplitude :=
        if idle then Num.max current idleAmp else current in
      let target :=
        if idle then targetAmplitude m * Fin 0.96 else targetAmplitude m in
      let phase := wavePhase m + animationSpeed cfg in
      let m' :=
        {| canvas := canvas m; ctx := ctx m;
           animationFrame := animationFrame m; connected := connected m;
           wavePhase := phase; currentAmplitude := current;
           targetAmplitude := target; lastDataTime := lastDataTime m |} in
      let clear := Draw (ClearRect (canvasWidth cv) (canvasHeight cv)) in
      match drawWaveform phase (canvasWidth cv) (canvasHeight cv)
              effectiveAmplitude with
      | Some cmds =>
          (setAnimationFrame m' (Some handle),
           (clear :: map Draw cmds ++ [RequestAnimationFrame handle])%list)
      | None => (m', [clear; Throws])
      end
  | _, _ =>
      (setAnimationFrame m (Some handle), [RequestAnimationFrame handle])
  end.

(** *** The other methods *)

Definition start (cfg : Config) (now : Z) (handle : nat) : module * list output :=
  let m := {| canvas := None; ctx := false; animationFrame := None;
              connected := false; wavePhase := Fin 0;
              currentAmplitude := Fin 0; targetAmplitude := Fin 0;
              lastDataTime := now |} in
  let (m', out) := animateWaveform cfg now handle m in
  (m', SendConfig :: out).

Definition socketNotificationReceived (cfg : Config) (now : Z)
           (n : notification) (m : module) : module * list output :=
  match n with
  | WAVEFORM_DATA data => updateWaveformData now data m
  | CONNECTION_STATUS c =>
      ({| canvas := canvas m; ctx := ctx m;
          animationFrame := animationFrame m; connected := c;
          wavePhase := wavePhase m; currentAmplitude := currentAmplitude m;
          targetAmplitude := targetAmplitude m;
          lastDataTime := lastDataTime m |},
       if negb c && showDebug cfg
       then [LogError "MMM-GeminiWaveform: Lost connection to Python backend"]
       else [])
  | Other _ => (m, [])
  end.

(** [getDom] makes a canvas of the configured size; [gotContext] says
    whether [getContext("2d")] returned a context. *)
Definition getDom (cfg : Config) (gotContext : bool) (m : module) : module :=
  {| canvas := Some {| canvasWidth := width cfg; canvasHeight := height cfg |};
     ctx := gotContext;
     animationFrame := animationFrame m; connected := connected m;
     wavePhase := wavePhase m; currentAmplitude := currentAmplitude m;
     targetAmplitude := targetAmplitude m; lastDataTime := lastDataTime m |}.

Definition suspend (m : module) : module * list output :=
  match animationFrame m with
  | Some f => (setAnimationFrame m None, [CancelAnimationFrame f])
  | None => (m, [])
  end.

Definition resume (cfg : Config) (now : Z) (handle : nat) (m : module)
  : module * list output :=
  match animationFrame m with
  | None => animateWaveform cfg now handle m
  | Some _ => (m, [])
  end.

(** *** Runs of the module *)

(** What MagicMirror and the browser can call, each with the reading of
    the clock ([Date.now()]) and the frame handle it needs. *)
Inductive event : Type :=
| EvGetDom (gotContext : bool)
| EvNotification (now : Z) (n : notification)
| EvFrame (now : Z) (handle : nat)
| EvSuspend
| EvResume (now : Z) (handle : nat).

Definition step (cfg : Config) (m : module) (e : event) : module :=
  match e with
  | EvGetDom g => getDom cfg g m
  | EvNotification now n => fst (socketNotificationReceived cfg now n m)
  | EvFrame now handle => fst (animateWaveform cfg now handle m)
  | EvSuspend => fst (suspend m)
  | EvResume now handle => fst (resume cfg now handle m)
  end.

Definition run (cfg : Config) (es : list event) (m : module) : module :=
  fold_left (step cfg) es m.

(** The amplitude samples of a run, in order. *)
Definition sampleOf (e : event) : option num :=
  match e with
  | EvNotification _ (WAVEFORM_DATA (Fields (Some a) _)) => Some a
  | _ => None
  end.

Fixpoint samples (es : list event) : list num :=
  match es with
  | [] => []
  | e :: rest =>
      match sampleOf e with
      | Some a => a :: samples rest
      | None => samples rest
      end
  end.

Definition inUnitInterval (a : num) : Prop :=
  match a with
  | Fin r => (0 <= r <= 1)%R
  | _ => False
  end.

(** The largest sample of a list ([0] when there is none). *)
Fixpoint maxSample (l : list num) : R :=
  match l with
  | [] => 0%R
  | Fin r :: rest => Rmax r (maxSample rest)
  | _ :: rest => maxSample rest
  end.

(** *** From the wire to the module *)

(** The payload the module sees for the [data] the helper forwards, when
    [amplitude] and [phase] are numbers or missing as the wire protocol
    has them. *)
Definition numberField (v : value) : option (option num) :=
  match v with
  | VUndefined => Some None
  | VNum n => Some (Some n)
  | _ => None
  end.

Definition payloadOf (d : value) : option payload :=
  match d with
  | VUndefined | VNull => Some Nullish
  | VObj fields =>
      match numberField (Js.lookup "amplitude" fields),
            numberField (Js.lookup "phase" fields) with
      | Some a, Some p => Some (Fields a p)
      | _, _ => None
      end
  | _ => Some (Fields None None)
  end.

(** *** Reading a payload and bounding the smoother *)



(** Both amplitudes of the smoother are finite and lie in [[0, bound]]. *)
Definition bounded (bound : R) (m : module) : Prop :=
  exists c t : R,
    currentAmplitude m = Fin c /\ targetAmplitude m = Fin t /\
    (0 <= c <= bound)%R /\ (0 <= t <= bound)%R.

Definition defaults : Config :=
  {| width := 300; height := 100; idleAmplitude := Fin 0.06;
     animationSpeed := Fin 0.35; showDebug := false |}.

(** The module right after [start] at time 0 with the defaults. *)
Definition started : module := fst (start defaults 0 1).

(** A short session: the canvas appears, a frame is drawn, the sample
    [0.8] arrives, two frames are drawn, the second one after the idle
    threshold. *)
Definition sampleSession : list event :=
  [EvGetDom true; EvFrame 16 2;
   EvNotification 20 (WAVEFORM_DATA (Fields (Some (Fin 0.8)) (Some (Fin 1.57))));
   EvFrame 32 3; EvFrame 400 4].

End Waveform.

(* ================================================================= *)
(** ** From the helper's socket to the module's smoother *)

Module Bridge.

Import NodeHelper.
Local Open Scope string_scope.

(** MagicMirror hands a notification the helper sent to the module's
    [socketNotificationReceived].  [None] when the payload is outside the
    wire protocol (a field that is neither of its type nor missing). *)
Definition notificationOf (name : string) (d : value)
  : option Waveform.notification :=
  if String.eqb name "WAVEFORM_DATA" then
    option_map Waveform.WAVEFORM_DATA (Waveform.payloadOf d)
  else if String.eqb name "CONNECTION_STATUS" then
    match Js.getProp d "connected" with
    | Some (VBool c) => Some (Waveform.CONNECTION_STATUS c)
    | _ => None
    end
  else Some (Waveform.Other name).

Definition received (cfg : Waveform.Config) (now : Z) (a : action)
           (m : Waveform.module) : option Waveform.module :=
  match a with
  | Notify name d =>
      match notificationOf name d with
      | Some n => Some (fst (Waveform.socketNotificationReceived cfg now n m))
      | None => None
      end
  | _ => Some m
  end.

Fixpoint receivedAll (cfg : Waveform.Config) (now : Z) (l : list action)
         (m : Waveform.module) : option Waveform.module :=
  match l with
  | [] => Some m
  | a :: rest =>
      match received cfg now a m with
      | Some m' => receivedAll cfg now rest m'
      | None => None
      end
  end.

(** One frame from the socket: the helper's message handler, then the
    module on what the handler sent. *)
Definition ingest (cfg : Waveform.Config) (now : Z) (data : string) (s : sys)
           (m : Waveform.module) : option Waveform.module :=
  receivedAll cfg now (emitted (onMessage data) s) m.

(** A host in which every frame parses to the waveform message with
    amplitude 2 and no phase. *)
Definition loudMessage : value :=
  VObj [("type", VStr "waveform");
        ("data", VObj [("amplitude", VNum (Fin 2))])].

Definition loudHost : sys :=
  boot true false (fun _ => true) (fun _ => Some loudMessage).

End Bridge.

(* ================================================================= *)
(** ** The renderer as the specification words it *)

Module Reference.

Local Open Scope num_scope.

Definition sampleCount (w : nat) : nat := Nat.min 200 w.

Definition margin (amplitude : num) : num :=
  Num.max (Fin 12) (Fin 6 + amplitude * Fin 6).

Definition fourPi : num := Fin 4 * Num.PI.
Definition sevenPi : num := Fin 7 * Num.PI.
Definition twoPi : num := Fin 2 * Num.PI.

(** The point of index [i]: [t = i/(n-1)],
    [x = margin + t*(width - 2*margin)],
    [w = 0.35*sin(phase + t*4pi) + 0.22*sin(1.7*phase + t*7pi)
         + 0.5*sin(0.8*phase + t*2pi)],
    [y = height/2 + w*amplitude*height*0.28]. *)
Definition pointAt (amplitude phase : num) (w h : nat) (i : nat)
  : Waveform.point :=
  let n := sampleCount w in
  let t := Num.ofNat i / (Num.ofNat n - Fin 1) in
  let wv := Fin 0.35 * Num.sin (phase + t * fourPi)
            + Fin 0.22 * Num.sin (Fin 1.7 * phase + t * sevenPi)
            + Fin 0.5 * Num.sin (Fin 0.8 * phase + t * twoPi) in
  {| Waveform.x := margin amplitude
                   + t * (Num.ofNat w - Fin 2 * margin amplitude);
     Waveform.y := Num.ofNat h / Fin 2
                   + wv * amplitude * Num.ofNat h * Fin 0.28 |}.

Definition points (amplitude phase : num) (w h : nat) : list Waveform.point :=
  map (pointAt amplitude phase w h) (seq 0 (sampleCount w)).

(** The same formulas over the real numbers, for a finite amplitude [a] and
    phase [p]. *)
Section Real.

Local Open Scope R_scope.

Variables (a p : R) (w h : nat).

Definition realMargin : R := Rmax 12 (6 + a * 6).

Definition tAt (i : nat) : R := INR i / (INR (sampleCount w) - 1).

Definition xAt (i : nat) : R :=
  realMargin + tAt i * (INR w - 2 * realMargin).

Definition waveAt (i : nat) : R :=
  0.35 * Rtrigo_def.sin (p + tAt i * (4 * Rtrigo1.PI))
  + 0.22 * Rtrigo_def.sin (1.7 * p + tAt i * (7 * Rtrigo1.PI))
  + 0.5 * Rtrigo_def.sin (0.8 * p + tAt i * (2 * Rtrigo1.PI)).

Definition yAt (i : nat) : R :=
  INR h / 2 + waveAt i * a * INR h * 0.28.

Definition realPoints : list Waveform.point :=
  map (fun i => {| Waveform.x := Fin (xAt i); Waveform.y := Fin (yAt i) |})
    (seq 0 (sampleCount w)).

End Real.

End Reference.

(* ================================================================= *)
(** ** Runs of the helper: what stays true along them *)

Module Supervision.

Import NodeHelper.
Local Open Scope string_scope.
Local Open Scope Z_scope.

(** The ids of the pending timers whose callback reconnects. *)
Definition reconnectPending (l : list (nat * callback)) : list nat :=
  map fst
    (filter (fun p => match snd p with Reconnect => true | Relaunch => false end)
       l).

(** The timers of the host are in order: every pending id was handed out
    before, no id is pending twice, and a pending reconnect timer is the one
    [this.reconnectTimer] names. *)
Definition wellTimed (s : sys) : Prop :=
  Forall (fun p => (fst p < nextId (rt s))%nat) (timers (rt s))
  /\ NoDup (map fst (timers (rt s)))
  /\ (forall id, In id (reconnectPending (timers (rt s))) ->
                 reconnectTimer (me s) = Some id).

(** A computation that keeps the timers in order. *)
Definition keeps {A} (m : M A) : Prop :=
  forall s, wellTimed s -> wellTimed (snd (m s)).

(** Every event but a call of [start]. *)
Definition notStart (e : event) : bool :=
  match e with EvStart => false | _ => true end.

(** A reconnect delay between the first step and the cap. *)
Definition delayInRange (d : Z) : Prop := 2000 <= d <= 30000.

(** The counter is not negative and every reconnect delay set so far is in
    range. *)
Definition sane (s : sys) : Prop :=
  0 <= reconnectAttempts (me s) /\ Forall delayInRange (reconnectDelays (trace s)).

(** The spawn [startPythonBackend] makes in host [r] with config [c]. *)
Definition spawnOf (r : host) (c : Config) : action :=
  Spawn (nextId r)
    (if venvPython r then pythonPath else "python3")
    (if String.eqb (videoMode c) "" then "camera" else videoMode c)
    (match cameraIndex c with Some i => i | None => 0 end).

(** The URL [connectWebSocket] builds from the config. *)
Definition wsUrl (c : Config) : string :=
  "ws://" ++ pythonHost c ++ ":" ++ pythonPort c.

(** The message the open handler sends. *)
Definition handshake (c : Config) : value :=
  VObj [("type", VStr "config");
        ("data", VObj [("updateInterval", updateInterval c);
                       ("animationSpeed", animationSpeed c)])].

(** What [stop] does to the outside after its log line, and the host and
    the helper it leaves. *)
Definition stopActions (h : helper) : list action :=
  (match reconnectTimer h with Some t => [TimerClear t] | None => [] end
   ++ match ws h with Some id => [SocketClose id] | None => [] end
   ++ match pythonProcess h with Some p => [Kill p] | None => [] end)%list.

Definition stopHost (h : helper) (r : host) : host :=
  let r1 := match reconnectTimer h with
            | Some t => withTimers r (dropTimer t (timers r))
            | None => r
            end in
  match ws h with
  | Some id =>
      match stateOf id (sockets r1) with
      | Some CONNECTING | Some OPEN =>
          withSockets r1 (setState id CLOSING (sockets r1))
      | _ => r1
      end
  | None => r1
  end.

Definition stopped (h : helper) : helper :=
  {| config := config h; ws := None; pythonProcess := None;
     reconnectTimer := None; reconnectAttempts := reconnectAttempts h |}.

(** Every event but a change of the files the helper tests. *)
Definition noFiles (e : event) : bool :=
  match e with EvFiles _ _ => false | _ => true end.

(** From [s] to [s'], if the credential file is missing in [s] it is still
    missing in [s'] and nothing was spawned in between. *)
Definition barren (s s' : sys) : Prop :=
  envFile (rt s) = false ->
  envFile (rt s') = false /\ count isSpawn (trace s') = count isSpawn (trace s).

(** A computation that spawns nothing while the credential file is missing. *)
Definition spawnless {A} (m : M A) : Prop := forall s, barren s (snd (m s)).

(** Sample systems: where a run leads ([s] itself when an event is not
    enabled); the helper after CONFIG, with child 1 running and socket 2
    connecting; the same once socket 2 is open; a host that rejects every
    URL, after CONFIG was stored; and the helper connected on socket 4
    while the reconnect timer 3 of the failed socket 2 is still pending.
    [sampleNoEnvRun] is a run for the host without the credential file. *)
Definition after (es : list event) (s : sys) : sys :=
  match run es s with
  | Some s' => s'
  | None => s
  end.

Definition configured : sys := snd (setConfig (Some defaults) sampleBoot).

Definition running : sys :=
  after [EvStart; EvSocketNotification "CONFIG" defaults] sampleBoot.

Definition connectedSys : sys := after [EvWsOpen 2] running.

Definition badUrlSys : sys :=
  snd (setConfig (Some defaults)
         (boot true false (fun _ => false) (fun _ => None))).

Definition sampleNoEnvRun : list event :=
  [EvStart; EvSocketNotification "CONFIG" defaults; EvWsError 1; EvWsClose 1;
   EvTimer 2; EvWsClose 3; EvTimer 4; EvStop].

Definition staleTimerSys : sys :=
  after [EvWsError 2; EvWsClose 2; EvSocketNotification "CONFIG" defaults;
         EvWsOpen 4] running.

End Supervision.

(* ================================================================= *)
(** ** Runs of the module: frames, outputs and the canvas *)

Module Animation.

Import Waveform.
Local Open Scope num_scope.

(** An animation frame. *)
Definition isFrame (e : event) : Prop :=
  match e with EvFrame _ _ => True | _ => False end.

(** A frame drawn no later than 250 ms after the time [last]. *)
Definition freshFrame (last : Z) (e : event) : Prop :=
  match e with
  | EvFrame now _ => (now - last <= 250)%Z
  | _ => False
  end.

(** A frame drawn more than 250 ms after the time [last]. *)
Definition idleFrame (last : Z) (e : event) : Prop :=
  match e with
  | EvFrame now _ => (250 < now - last)%Z
  | _ => False
  end.

(** A point with finite coordinates inside a canvas of [w] by [h], twelve
    pixels off its left and right edge. *)
Definition inside (w h : nat) (pt : point) : Prop :=
  match x pt, y pt with
  | Fin px, Fin py => (12 <= px <= INR w - 12 /\ 0 <= py <= INR h)%R
  | _, _ => False
  end.

(** What one call of the module puts out, and what a run puts out. *)
Definition stepOut (cfg : Config) (m : module) (e : event) : list output :=
  match e with
  | EvGetDom _ => []
  | EvNotification now n => snd (socketNotificationReceived cfg now n m)
  | EvFrame now handle => snd (animateWaveform cfg now handle m)
  | EvSuspend => snd (suspend m)
  | EvResume now handle => snd (resume cfg now handle m)
  end.

Fixpoint outputs (cfg : Config) (es : list event) (m : module) : list output :=
  match es with
  | [] => []
  | e :: rest => stepOut cfg m e ++ outputs cfg rest (step cfg m e)
  end.

(** The calls that drive the animation loop: a frame, suspend, resume. *)
Definition isLoopEvent (e : event) : Prop :=
  match e with
  | EvFrame _ _ | EvSuspend | EvResume _ _ => True
  | _ => False
  end.

(** A call on the drawing context. *)
Definition isDraw (o : output) : bool :=
  match o with Draw _ => true | _ => false end.

(** The smoother's part of the module: phase, both amplitudes and the time
    of the last sample. *)
Definition smoother (m : module) : num * num * num * Z :=
  (wavePhase m, currentAmplitude m, targetAmplitude m, lastDataTime m).

(** Sample modules: after [getDom] with the defaults; the same after the
    sample 0.8 arrived at time 20; and after [getDom] with a canvas of
    width 0. *)
Definition onCanvas : module := getDom defaults true started.

Definition fed : module :=
  fst (updateWaveformData 20 (Fields (Some (Fin 0.8)) None) onCanvas).

Definition zeroWidth : Config :=
  {| width := 0; height := 100; idleAmplitude := Fin 0.06;
     animationSpeed := Fin 0.35; showDebug := false |}.

Definition onZeroWidth : module := getDom zeroWidth true started.

End Animation.

(* ================================================================= *)
(** ** Properties of the node helper *)

Module NodeHelperFacts.

Import NodeHelper.
Local Open Scope string_scope.
Local Open Scope Z_scope.

(** *** The trace only grows *)

Lemma emitted_of_trace {A} (m : M A) (s : sys) (new : list action) :
  trace (snd (m s)) = (trace s ++ new)%list -> emitted m s = new.
Proof.
  intro H. unfold emitted. rewrite H, skipn_app, skipn_all, Nat.sub_diag.
  reflexivity.
Qed.

(** *** The reconnect counter and the delays of the timers *)

Lemma reconnectDelays_app (l1 l2 : list action) :
  reconnectDelays (l1 ++ l2) = (reconnectDelays l1 ++ reconnectDelays l2)%list.
Proof.
  induction l1 as [|a l1 IH]; simpl; [reflexivity|].
  destruct (reconnectDelay a); simpl; now rewrite IH.
Qed.

Lemma advances_refl (s s' : sys) :
  reconnectAttempts (me s') = reconnectAttempts (me s) ->
  reconnectDelays (trace s') = reconnectDelays (trace s) ->
  advances 0 s s'.
Proof.
  intros Ha Hd. split; simpl.
  - lia.
  - now rewrite app_nil_r.
Qed.

Lemma map_seq_shift {B} (g : nat -> B) (d n start : nat) :
  map g (seq (d + start) n) = map (fun k => g (d + k)%nat) (seq start n).
Proof.
  revert start. induction n as [|n IH]; intro start; simpl; [reflexivity|].
  f_equal. rewrite <- IH. f_equal. f_equal. lia.
Qed.

Lemma advances_trans (n1 n2 : nat) (s1 s2 s3 : sys) :
  advances n1 s1 s2 -> advances n2 s2 s3 -> advances (n1 + n2) s1 s3.
Proof.
  intros [Ha1 Hd1] [Ha2 Hd2]. split.
  - rewrite Ha2, Ha1. lia.
  - rewrite Hd2, Hd1, <- app_assoc. f_equal.
    rewrite seq_app, map_app. f_equal.
    rewrite Ha1, Nat.add_comm, map_seq_shift.
    apply map_ext. intro k. f_equal. lia.
Qed.

Section Counting.

Context {A B : Type}.

Lemma counting_ret (a : A) : counting (ret a).
Proof. intro s. exists 0%nat. now apply advances_refl. Qed.

Lemma counting_throw (e : exn) : counting (@throw A e).
Proof. intro s. exists 0%nat. now apply advances_refl. Qed.

Lemma counting_bind (m : M A) (k : A -> M B) :
  counting m -> (forall a, counting (k a)) -> counting (bind m k).
Proof.
  intros Hm Hk s. unfold bind.
  destruct (Hm s) as [n1 H1]. destruct (m s) as [[a|e] s1]; simpl in *.
  - destruct (Hk a s1) as [n2 H2]. exists (n1 + n2)%nat.
    eapply advances_trans; eassumption.
  - now exists n1.
Qed.

Lemma counting_tryCatch (body : M A) (h : exn -> M A) :
  counting body -> (forall e, counting (h e)) -> counting (tryCatch body h).
Proof.
  intros Hm Hk s. unfold tryCatch.
  destruct (Hm s) as [n1 H1]. destruct (body s) as [[a|e] s1]; simpl in *.
  - now exists n1.
  - destruct (Hk e s1) as [n2 H2]. exists (n1 + n2)%nat.
    eapply advances_trans; eassumption.
Qed.

End Counting.

Lemma counting_getMe : counting getMe.
Proof. intro s. exists 0%nat. now apply advances_refl. Qed.

Lemma counting_getRt : counting getRt.
Proof. intro s. exists 0%nat. now apply advances_refl. Qed.

Lemma counting_setRt (r : host) : counting (setRt r).
Proof. intro s. exists 0%nat. now apply advances_refl. Qed.

Lemma counting_emit (a : action) : reconnectDelay a = None -> counting (emit a).
Proof.
  intros Ha s. exists 0%nat. apply advances_refl; simpl; [reflexivity|].
  rewrite reconnectDelays_app. simpl. rewrite Ha. apply app_nil_r.
Qed.

Lemma counting_setConfig (c : option Config) : counting (setConfig c).
Proof. intro s. exists 0%nat. now apply advances_refl. Qed.

Lemma counting_setWs (w : option nat) : counting (setWs w).
Proof. intro s. exists 0%nat. now apply advances_refl. Qed.

Lemma counting_setPythonProcess (p : option nat) : counting (setPythonProcess p).
Proof. intro s. exists 0%nat. now apply advances_refl. Qed.

Lemma counting_setReconnectTimer (t : option nat) : counting (setReconnectTimer t).
Proof. intro s. exists 0%nat. now apply advances_refl. Qed.

Create HintDb counting.
#[local] Hint Resolve counting_getMe counting_getRt counting_setRt
  counting_setConfig counting_setWs counting_setPythonProcess
  counting_setReconnectTimer : counting.

Ltac count_step :=
  first
    [ apply counting_ret
    | apply counting_throw
    | solve [auto with counting]
    | apply counting_emit; reflexivity
    | apply counting_bind; [ | intro ]
    | apply counting_tryCatch; [ | intro ]
    | match goal with
      | |- counting (match ?x with _ => _ end) => destruct x
      end ].

Ltac count_all := cbv zeta; repeat count_step.

Lemma counting_relaunch_timer : counting (setTimeout Relaunch 5000).
Proof. unfold setTimeout, fresh. count_all. Qed.

Lemma counting_clearTimeout (t : nat) : counting (clearTimeout t).
Proof. unfold clearTimeout. count_all. Qed.

Lemma counting_spawn exe mode camera : counting (spawn exe mode camera).
Proof. unfold spawn, fresh. count_all. Qed.

Lemma counting_newWebSocket url : counting (newWebSocket url).
Proof. unfold newWebSocket, fresh. count_all. Qed.

Lemma counting_socketClose id : counting (socketClose id).
Proof. unfold socketClose. count_all. Qed.

#[local] Hint Resolve counting_relaunch_timer counting_clearTimeout
  counting_spawn counting_newWebSocket counting_socketClose : counting.

Lemma counting_scheduleReconnect : counting scheduleReconnect.
Proof.
  intro s. exists 1%nat.
  unfold scheduleReconnect, bind, getMe.
  destruct (reconnectTimer (me s)); simpl;
    (split; simpl; [lia|]);
    repeat rewrite reconnectDelays_app; simpl;
    repeat rewrite app_nil_r; reflexivity.
Qed.

#[local] Hint Resolve counting_scheduleReconnect : counting.

Lemma counting_startPythonBackend : counting startPythonBackend.
Proof. unfold startPythonBackend, theConfig, log, logError. count_all. Qed.

#[local] Hint Resolve counting_startPythonBackend : counting.

Lemma counting_connectWebSocket : counting connectWebSocket.
Proof. unfold connectWebSocket, theConfig, log, logError. count_all. Qed.

Lemma counting_onChildClose code : counting (onChildClose code).
Proof. unfold onChildClose, log. count_all. Qed.

Lemma counting_relaunch : counting relaunch.
Proof. unfold relaunch. count_all. Qed.

Lemma counting_onMessage data : counting (onMessage data).
Proof. unfold onMessage, sendSocketNotification, logError. count_all. Qed.

Lemma counting_onClose : counting onClose.
Proof. unfold onClose, sendSocketNotification, log. count_all. Qed.

Lemma counting_onError : counting onError.
Proof. unfold onError, sendSocketNotification, logError. count_all. Qed.

#[local] Hint Resolve counting_connectWebSocket counting_onChildClose
  counting_relaunch counting_onMessage counting_onClose counting_onError
  : counting.

Lemma counting_socketNotificationReceived n p :
  counting (socketNotificationReceived n p).
Proof. unfold socketNotificationReceived. count_all. Qed.

Lemma counting_stop : counting stop.
Proof. unfold stop, kill, log. count_all. Qed.

Lemma counting_handler (r : host) (e : event) :
  failure e = true -> counting (handler r e).
Proof.
  destruct e; simpl; intro H; try discriminate;
    auto using counting_socketNotificationReceived, counting_stop with counting.
  destruct (pending id (timers r)) as [[|]|]; auto with counting.
Qed.

Lemma step_advances (s s' : sys) (e : event) :
  failure e = true -> step s e = Some s' -> exists n, advances n s s'.
Proof.
  intros Hf. unfold step. destruct (enabled (rt s) e); [|discriminate].
  intro H. injection H as <-. unfold dispatch.
  destruct (counting_handler (rt s) e Hf
              {| me := me s; rt := arrive (rt s) e; trace := trace s |})
    as [n [Ha Hd]].
  exists n.
  destruct (handler (rt s) e _) as [[u|x] s1]; simpl in *.
  - now split.
  - split; [assumption|]. simpl.
    rewrite reconnectDelays_app, Hd. simpl. apply app_nil_r.
Qed.

Lemma run_advances (es : list event) :
  forall s s',
    forallb failure es = true -> run es s = Some s' ->
    exists n, advances n s s'.
Proof.
  induction es as [|e es IH]; intros s s' Hf Hrun; simpl in *.
  - injection Hrun as <-. exists 0%nat. now apply advances_refl.
  - apply andb_true_iff in Hf as [He Hes].
    destruct (step s e) as [s1|] eqn:Hstep; [|discriminate].
    destruct (step_advances _ _ _ He Hstep) as [n1 H1].
    destruct (IH _ _ Hes Hrun) as [n2 H2].
    exists (n1 + n2)%nat. eapply advances_trans; eassumption.
Qed.

Lemma backoff_first_six :
  map backoff [1; 2; 3; 4; 5; 6] = [2000; 4000; 8000; 16000; 30000; 30000].
Proof. reflexivity. Qed.

Lemma backoff_capped (k : Z) : 5 <= k -> backoff k = 30000.
Proof.
  intro H. unfold backoff. apply Z.min_r.
  assert (H32 : 2 ^ 5 <= 2 ^ k) by (apply Z.pow_le_mono_r; lia).
  change (2 ^ 5) with 32 in H32. lia.
Qed.

Lemma onOpen_resets (s : sys) : reconnectAttempts (me (snd (onOpen s))) = 0.
Proof.
  unfold onOpen, bind, log, sendSocketNotification, emit,
    setReconnectAttempts, bind, getMe, setMe, theConfig, socketSend,
    bind, getMe, getRt, throw, ret.
  simpl.
  destruct (ws (me s)) as [id|]; simpl; [|reflexivity].
  destruct (config (me s)); simpl; [|reflexivity].
  destruct (stateOf id (sockets (rt s))) as [[]|]; reflexivity.
Qed.

(** C1.  Take any run of the helper that starts with the reconnect counter
    at 0 and has neither a socket open nor a [start] in it.  The reconnect
    timers set during the run have, in order, the delays
    [min(1000 * 2^k, 30000)] for [k = 1, 2, ..., n], and the counter ends at
    [n].  The first six delays are 2000, 4000, 8000, 16000, 30000, 30000 and
    every later one is 30000.  The open handler puts the counter back to 0,
    whatever the state it runs in. *)
Theorem reconnect_delays_follow_backoff :
  forall (es : list event) (s s' : sys),
    reconnectAttempts (me s) = 0 ->
    forallb failure es = true ->
    run es s = Some s' ->
    (exists n : nat,
        reconnectDelays (trace s') =
          (reconnectDelays (trace s)
           ++ map (fun k => Z.min (1000 * 2 ^ Z.of_nat k) 30000) (seq 1 n))%list
        /\ reconnectAttempts (me s') = Z.of_nat n)
    /\ map (fun k => Z.min (1000 * 2 ^ Z.of_nat k) 30000) (seq 1 6)
       = [2000; 4000; 8000; 16000; 30000; 30000]
    /\ (forall k : nat, Z.min (1000 * 2 ^ Z.of_nat (5 + k)) 30000 = 30000)
    /\ (forall s0 : sys, reconnectAttempts (me (dispatch onOpen s0)) = 0).
Proof.
  intros es s s' H0 Hf Hrun. repeat split.
  - destruct (run_advances es s s' Hf Hrun) as [n [Ha Hd]].
    exists n. rewrite H0 in Ha, Hd. split; [|lia].
    rewrite Hd. f_equal.
  - intro k. apply (backoff_capped (Z.of_nat (5 + k))). lia.
  - intro s0. unfold dispatch. pose proof (onOpen_resets s0) as H.
    destruct (onOpen s0) as [[u|x] s1]; exact H.
Qed.

Lemma reconnect_delays_follow_backoff_witness :
  reconnectAttempts (me sampleBoot) = 0 /\
  forallb failure sampleFailures = true /\
  exists s' : sys,
    run sampleFailures sampleBoot = Some s' /\
    reconnectDelays (trace s') = [2000; 4000; 8000; 16000; 30000; 30000] /\
    exists n : nat,
      reconnectDelays (trace s') =
        (reconnectDelays (trace sampleBoot)
         ++ map (fun k => Z.min (1000 * 2 ^ Z.of_nat k) 30000) (seq 1 n))%list
      /\ reconnectAttempts (me s') = Z.of_nat n.
Proof.
  split; [reflexivity|]. split; [reflexivity|].
  eexists. split; [vm_compute; reflexivity|]. split; [reflexivity|].
  apply (reconnect_delays_follow_backoff sampleFailures sampleBoot);
    vm_compute; reflexivity.
Defined.

(** *** The message handler *)

Lemma isString_true (v : value) (str : string) :
  Js.isString v str = true -> v = VStr str.
Proof.
  destruct v; simpl; try discriminate.
  intro H. apply String.eqb_eq in H. now subst.
Qed.

Lemma waveformFrame_unique (r : host) (data : string) (d d' : value) :
  waveformFrame r data d -> waveformFrame r data d' -> d = d'.
Proof.
  intros [m [Hm [_ Hd]]] [m' [Hm' [_ Hd']]]. congruence.
Qed.

(** What one call of the handler does, case by case on the frame. *)
Lemma onMessage_cases (data : string) (s : sys) :
  exists new : list action,
    fst (onMessage data s) = Ok tt /\
    me (snd (onMessage data s)) = me s /\
    rt (snd (onMessage data s)) = rt s /\
    trace (snd (onMessage data s)) = (trace s ++ new)%list /\
    ((exists d, waveformFrame (rt s) data d /\ new = [Notify "WAVEFORM_DATA" d])
     \/ ((forall d, ~ waveformFrame (rt s) data d) /\
         (jsonParse (rt s) data <> None /\ new = []
          \/ new = [LogError "Error parsing WebSocket message:"]))).
Proof.
  unfold onMessage, tryCatch, bind, getRt, waveformFrame. simpl.
  destruct (jsonParse (rt s) data) as [message|] eqn:Hparse.
  - destruct (Js.getProp message "type") as [ty|] eqn:Hty.
    + destruct (Js.isString ty "waveform") eqn:Hw.
      * apply isString_true in Hw. subst ty.
        destruct (Js.getProp message "data") as [d|] eqn:Hd.
        -- exists [Notify "WAVEFORM_DATA" d]. simpl. repeat split.
           left. exists d. split; [|reflexivity]. now exists message.
        -- destruct message; discriminate.
      * exists []. simpl. rewrite app_nil_r. repeat split.
        right. split.
        -- intros d [m [Hm [Hty' _]]].
           assert (m = message) by congruence. subst m.
           rewrite Hty in Hty'. injection Hty' as ->.
           vm_compute in Hw. discriminate.
        -- left. split; [discriminate|reflexivity].
    + exists [LogError "Error parsing WebSocket message:"]. simpl.
      repeat split. right. split; [|now right].
      intros d [m [Hm [Hty' _]]]. congruence.
  - exists [LogError "Error parsing WebSocket message:"]. simpl.
    repeat split. right. split; [|now right].
    intros d [m [Hm _]]. discriminate.
Qed.

(** C5.  For every frame and every state of the helper, the message handler
    returns normally, leaves the helper's fields and the host (sockets,
    timers, children) as they were, and forwards [d] to the module as
    WAVEFORM_DATA exactly when the frame is JSON text whose [type] is the
    string "waveform" and whose [data] is [d].  Anything else it emits is
    the one error line of the catch block, which a frame that does not
    parse always gets.  It closes no socket, and the event loop sees no
    exception from it. *)
Theorem message_forwarded_iff_waveform :
  forall (data : string) (s : sys),
    fst (onMessage data s) = Ok tt
    /\ me (snd (onMessage data s)) = me s
    /\ rt (snd (onMessage data s)) = rt s
    /\ trace (snd (onMessage data s))
       = (trace s ++ emitted (onMessage data) s)%list
    /\ (forall d : value,
           In (Notify "WAVEFORM_DATA" d) (emitted (onMessage data) s)
           <-> waveformFrame (rt s) data d)
    /\ (forall a : action,
           In a (emitted (onMessage data) s) ->
           (exists d, a = Notify "WAVEFORM_DATA" d)
           \/ a = LogError "Error parsing WebSocket message:")
    /\ (jsonParse (rt s) data = None ->
        emitted (onMessage data) s = [LogError "Error parsing WebSocket message:"])
    /\ count isSocketClose (emitted (onMessage data) s) = 0%nat
    /\ trace (dispatch (onMessage data) s) = trace (snd (onMessage data s)).
Proof.
  intros data s.
  destruct (onMessage_cases data s) as [new [Hok [Hme [Hrt [Htr Hnew]]]]].
  rewrite (emitted_of_trace _ _ _ Htr).
  repeat split; try assumption.
  - intro Hin. destruct Hnew as [[d0 [Hf ->]]|[_ [[_ ->]| ->]]].
    + destruct Hin as [Heq|[]]. injection Heq as <-. exact Hf.
    + destruct Hin.
    + destruct Hin as [Heq|[]]. discriminate.
  - intro Hf. destruct Hnew as [[d0 [Hf0 ->]]|[Hnone _]].
    + left. f_equal. eapply waveformFrame_unique; eassumption.
    + destruct (Hnone d Hf).
  - intros a Hin. destruct Hnew as [[d0 [Hf ->]]|[_ [[_ ->]| ->]]].
    + destruct Hin as [<-|[]]. left. now exists d0.
    + destruct Hin.
    + destruct Hin as [<-|[]]. now right.
  - intro Hparse. destruct Hnew as [[d0 [[m [Hm _]] _]]|[_ [[Hsome _]| ->]]].
    + congruence.
    + contradiction.
    + reflexivity.
  - destruct Hnew as [[d0 [_ ->]]|[_ [[_ ->]| ->]]]; reflexivity.
  - unfold dispatch. destruct (onMessage data s) as [[u|x] s1]; simpl in *.
    + reflexivity.
    + discriminate.
Qed.

(** *** Launching the backend without the credential file *)

(** C6, as the claim has it, fails: in a host without the credential file
    the launch does not spawn, keeps the handle unset and sets no timer, but
    it writes two error entries, not exactly one. *)
Lemma missing_env_not_one_error_entry :
  envFile (rt sampleNoEnv) = false /\
  pythonProcess (me sampleNoEnv) = None /\
  emitted startPythonBackend sampleNoEnv = missingEnvLines /\
  ~ (count isSpawn (emitted startPythonBackend sampleNoEnv) = 0%nat /\
     pythonProcess (me (snd (startPythonBackend sampleNoEnv))) = None /\
     count isLogError (emitted startPythonBackend sampleNoEnv) = 1%nat /\
     count isTimerSet (emitted startPythonBackend sampleNoEnv) = 0%nat).
Proof.
  repeat split.
  intros [_ [_ [H _]]]. vm_compute in H. discriminate.
Qed.

(** C6, amended.  A launch attempt (the handle is unset) that finds no
    credential file returns normally and emits exactly two error entries,
    the missing-file error and the line that says how to create the file.
    It spawns nothing, sets no timer, and leaves the helper's fields (the
    handle stays unset) and the host as they were. *)
Theorem missing_env_aborts_launch :
  forall s : sys,
    envFile (rt s) = false ->
    pythonProcess (me s) = None ->
    fst (startPythonBackend s) = Ok tt
    /\ emitted startPythonBackend s = missingEnvLines
    /\ count isLogError (emitted startPythonBackend s) = 2%nat
    /\ count isSpawn (emitted startPythonBackend s) = 0%nat
    /\ count isTimerSet (emitted startPythonBackend s) = 0%nat
    /\ pythonProcess (me (snd (startPythonBackend s))) = None
    /\ me (snd (startPythonBackend s)) = me s
    /\ rt (snd (startPythonBackend s)) = rt s.
Proof.
  intros s Henv Hproc.
  assert (Hrun : startPythonBackend s
                 = (Ok tt, {| me := me s; rt := rt s;
                              trace := (trace s ++ missingEnvLines)%list |})).
  { unfold startPythonBackend, bind, getMe, getRt, logError, emit. simpl.
    rewrite Hproc, Henv. simpl. rewrite <- app_assoc. reflexivity. }
  assert (He : emitted startPythonBackend s = missingEnvLines).
  { apply emitted_of_trace. now rewrite Hrun. }
  rewrite He, Hrun. simpl. repeat split. exact Hproc.
Qed.

Lemma missing_env_aborts_launch_witness :
  envFile (rt sampleNoEnv) = false /\
  pythonProcess (me sampleNoEnv) = None /\
  count isLogError (emitted startPythonBackend sampleNoEnv) = 2%nat /\
  count isSpawn (emitted startPythonBackend sampleNoEnv) = 0%nat.
Proof.
  split; [reflexivity|]. split; [reflexivity|].
  destruct (missing_env_aborts_launch sampleNoEnv eq_refl eq_refl)
    as [_ [_ [Herr [Hspawn _]]]].
  split; assumption.
Defined.

(** *** Close and error events of the socket *)

(** C7, as the claim has it, fails: the error handler reports Disconnected
    but sets no reconnect timer, where the close handler sets one. *)
Lemma error_event_schedules_nothing :
  count isDisconnected (emitted onError sampleBoot) = 1%nat /\
  count isReconnectSet (emitted onClose sampleBoot) = 1%nat /\
  ~ (count isDisconnected (emitted onError sampleBoot) = 1%nat /\
     count isReconnectSet (emitted onError sampleBoot) = 1%nat).
Proof.
  repeat split.
  intros [_ H]. vm_compute in H. discriminate.
Qed.

Lemma pending_last (id : nat) (cb : callback) (l : list (nat * callback)) :
  pending id (l ++ [(id, cb)]) <> None.
Proof.
  induction l as [|[i c] l IH]; simpl.
  - rewrite Nat.eqb_refl. discriminate.
  - destruct (Nat.eqb i id); [discriminate|exact IH].
Qed.

Lemma onClose_trace (s : sys) :
  exists cleared : list action,
    (cleared = [] \/ exists t, cleared = [TimerClear t]) /\
    trace (snd (onClose s)) =
      (trace s
       ++ [Log "WebSocket disconnected";
           Notify "CONNECTION_STATUS" (connectionStatus false)]
       ++ cleared
       ++ [Log "Scheduling reconnect in ";
           TimerSet (nextId (rt s)) Reconnect
             (backoff (reconnectAttempts (me s) + 1))])%list /\
    fst (onClose s) = Ok tt /\
    reconnectAttempts (me (snd (onClose s))) = reconnectAttempts (me s) + 1 /\
    reconnectTimer (me (snd (onClose s))) = Some (nextId (rt s)) /\
    pending (nextId (rt s)) (timers (rt (snd (onClose s)))) <> None.
Proof.
  unfold onClose, scheduleReconnect, bind, log, sendSocketNotification,
    emit, getMe. simpl.
  destruct (reconnectTimer (me s)) as [t|]; simpl.
  - exists [TimerClear t]. split; [right; now exists t|].
    repeat rewrite <- app_assoc. simpl. repeat split.
    apply pending_last.
  - exists []. split; [now left|].
    repeat rewrite <- app_assoc. simpl. repeat split.
    apply pending_last.
Qed.

Lemma count_app (p : action -> bool) (l1 l2 : list action) :
  count p (l1 ++ l2) = (count p l1 + count p l2)%nat.
Proof. unfold count. now rewrite filter_app, length_app. Qed.

(** C7, amended.  On every close event the handler reports Disconnected
    once and schedules a reconnect: the counter goes up by one and one
    reconnect timer with the delay of that attempt is set and pending.  On
    every error event the handler logs the error and reports Disconnected
    once, and does nothing else: no timer is set and the helper's fields and
    the host stay as they were. *)
Theorem close_reconnects_error_reports :
  forall s : sys,
    (fst (onClose s) = Ok tt
     /\ count isDisconnected (emitted onClose s) = 1%nat
     /\ count isReconnectSet (emitted onClose s) = 1%nat
     /\ In (TimerSet (nextId (rt s)) Reconnect
              (backoff (reconnectAttempts (me s) + 1)))
          (emitted onClose s)
     /\ reconnectAttempts (me (snd (onClose s))) = reconnectAttempts (me s) + 1
     /\ pending (nextId (rt s)) (timers (rt (snd (onClose s)))) <> None)
    /\ (fst (onError s) = Ok tt
        /\ emitted onError s
           = [LogError "WebSocket error:";
              Notify "CONNECTION_STATUS" (connectionStatus false)]
        /\ count isDisconnected (emitted onError s) = 1%nat
        /\ count isTimerSet (emitted onError s) = 0%nat
        /\ me (snd (onError s)) = me s
        /\ rt (snd (onError s)) = rt s).
Proof.
  intro s. split.
  - destruct (onClose_trace s) as [cleared [Hc [Htr [Hok [Ha [_ Hp]]]]]].
    rewrite (emitted_of_trace _ _ _ Htr).
    repeat split; try assumption.
    + destruct Hc as [->|[t ->]]; reflexivity.
    + destruct Hc as [->|[t ->]]; reflexivity.
    + destruct Hc as [->|[t ->]]; simpl; tauto.
  - assert (Hrun : onError s
                   = (Ok tt,
                      {| me := me s; rt := rt s;
                         trace := (trace s
                                   ++ [LogError "WebSocket error:";
                                       Notify "CONNECTION_STATUS"
                                         (connectionStatus false)])%list |})).
    { unfold onError, bind, logError, sendSocketNotification, emit. simpl.
      now rewrite <- app_assoc. }
    assert (He : emitted onError s
                 = [LogError "WebSocket error:";
                    Notify "CONNECTION_STATUS" (connectionStatus false)]).
    { apply emitted_of_trace. now rewrite Hrun. }
    rewrite He, Hrun. simpl. repeat split.
Qed.

(** *** Stopping the helper *)

(** C8 fails on the code.  After CONFIG the backend runs as child 1.  Then
    [stop] kills it; its close event sets the relaunch timer, which [stop]
    neither cancels nor disarms ([this.config] is still set), and when that
    timer fires the backend is spawned again, as child 4. *)
Theorem relaunch_fires_after_stop :
  exists stopped final : sys,
    run [EvStart; EvSocketNotification "CONFIG" defaults; EvStop] sampleBoot
      = Some stopped
    /\ pythonProcess (me stopped) = None
    /\ timers (rt stopped) = []
    /\ run [EvChildClose 1 0; EvTimer 3] stopped = Some final
    /\ skipn (List.length (trace stopped)) (trace final)
       = [Log "Python process exited with code ";
          TimerSet 3 Relaunch 5000;
          Log "Starting Python backend: ";
          Spawn 4 "python3" "camera" 0]
    /\ pythonProcess (me final) = Some 4%nat
    /\ children (rt final) = [4%nat].
Proof.
  eexists. eexists.
  split; [vm_compute; reflexivity|].
  split; [reflexivity|]. split; [reflexivity|].
  split; [vm_compute; reflexivity|].
  repeat split.
Qed.

End NodeHelperFacts.

(* ================================================================= *)
(** ** Properties of the module *)

Module WaveformFacts.

Import Waveform.
Local Open Scope num_scope.

(** *** Arithmetic of [num] and the points of the renderer *)

Lemma scale_inf_pos (b : bool) (r : R) :
  (0 < r)%R -> Num.scale_inf b r = if b then PInf else NInf.
Proof.
  intro H. unfold Num.scale_inf.
  destruct (Rlt_dec 0 r); [reflexivity|contradiction].
Qed.

Lemma mul_comm (a b : num) : a * b = b * a.
Proof.
  destruct a, b; simpl; try reflexivity. f_equal. apply Rmult_comm.
Qed.

Lemma mul_assoc_pos (t : num) (a b : R) :
  (0 < a)%R -> (0 < b)%R -> t * Fin a * Fin b = t * (Fin a * Fin b).
Proof.
  intros Ha Hb.
  assert (Hab : (0 < a * b)%R) by (apply Rmult_lt_0_compat; assumption).
  destruct t; simpl.
  - f_equal. apply Rmult_assoc.
  - rewrite (scale_inf_pos true a Ha), (scale_inf_pos true (a * b) Hab). simpl.
    apply scale_inf_pos; assumption.
  - rewrite (scale_inf_pos false a Ha), (scale_inf_pos false (a * b) Hab). simpl.
    apply scale_inf_pos; assumption.
  - reflexivity.
Qed.

Lemma max_fin (a b : R) : Num.max (Fin a) (Fin b) = Fin (Rmax a b).
Proof.
  unfold Num.max, Num.gt.
  destruct (Rlt_dec a b) as [H|H].
  - now rewrite Rmax_right by lra.
  - now rewrite Rmax_left by lra.
Qed.

Lemma wavePoint_reference (phase amplitude : num) (w h i : nat) :
  wavePoint phase w h amplitude i = Reference.pointAt amplitude phase w h i.
Proof.
  unfold wavePoint, Reference.pointAt, Reference.sampleCount, numPoints,
    Reference.margin, margin, Reference.fourPi, Reference.sevenPi,
    Reference.twoPi, Num.PI.
  f_equal.
  rewrite !mul_assoc_pos by (try apply PI_RGT_0; lra).
  rewrite (mul_comm phase (Fin 1.7)), (mul_comm phase (Fin 0.8)).
  rewrite (mul_comm _ (Fin 0.35)), (mul_comm _ (Fin 0.22)), (mul_comm _ (Fin 0.5)).
  reflexivity.
Qed.

Lemma t_finite (w i : nat) :
  (2 <= w)%nat ->
  Num.ofNat i / (Num.ofNat (numPoints w) - Fin 1) = Fin (Reference.tAt w i).
Proof.
  intro Hw. unfold Num.ofNat, Reference.tAt, Reference.sampleCount, numPoints.
  assert (H2 : (2 <= Nat.min 200 w)%nat) by lia.
  apply le_INR in H2. change (INR 2) with (1 + 1)%R in H2.
  set (n := INR (Nat.min 200 w)) in *.
  unfold Num.sub, Num.neg, Num.add, Num.div.
  match goal with
  | |- context [Req_dec_T ?d 0] => destruct (Req_dec_T d 0) as [H|H]
  end; [lra|reflexivity].
Qed.

Lemma wavePoint_real (a p : R) (w h i : nat) :
  (2 <= w)%nat ->
  wavePoint (Fin p) w h (Fin a) i
  = {| x := Fin (Reference.xAt a w i); y := Fin (Reference.yAt a p w h i) |}.
Proof.
  intro Hw. unfold wavePoint. rewrite (t_finite w i Hw).
  unfold margin, Num.PI, Num.ofNat.
  cbn [Num.mul Num.add Num.sub Num.neg Num.sin]. rewrite max_fin.
  cbn [Num.mul Num.add Num.sub Num.neg Num.sin Num.div].
  match goal with
  | |- context [Req_dec_T ?d 0] => destruct (Req_dec_T d 0) as [H|_]
  end; [lra|].
  unfold Reference.xAt, Reference.yAt, Reference.waveAt, Reference.realMargin.
  cbn [Num.add].
  set (t := Reference.tAt w i).
  replace (p + t * 4 * PI)%R with (p + t * (4 * PI))%R by ring.
  replace (p * 1.7 + t * 7 * PI)%R with (1.7 * p + t * (7 * PI))%R by ring.
  replace (p * 0.8 + t * 2 * PI)%R with (0.8 * p + t * (2 * PI))%R by ring.
  f_equal; f_equal; ring.
Qed.

Lemma add_NaN_r (a : num) : a + NaN = NaN.
Proof. destruct a; reflexivity. Qed.

Lemma mul_NaN_r (a : num) : a * NaN = NaN.
Proof. destruct a; reflexivity. Qed.

Lemma zero_over_zero : Num.ofNat 0 / (Num.ofNat (numPoints 1) - Fin 1) = NaN.
Proof.
  change (numPoints 1) with 1%nat. unfold Num.ofNat.
  change (INR 0) with 0%R. change (INR 1) with 1%R.
  unfold Num.sub, Num.neg, Num.add, Num.div.
  match goal with
  | |- context [Req_dec_T ?d 0] => destruct (Req_dec_T d 0) as [_|H]
  end; [|exfalso; apply H; ring].
  unfold Num.scale_inf.
  destruct (Rlt_dec 0 0) as [H|_]; [lra|reflexivity].
Qed.

Lemma wavePoints_width_one (phase amplitude : num) (h : nat) :
  wavePoints phase 1 h amplitude = [{| x := NaN; y := NaN |}].
Proof.
  unfold wavePoints. change (numPoints 1) with 1%nat. cbn [seq map].
  unfold wavePoint. rewrite zero_over_zero.
  repeat (cbn [Num.mul Num.sin Num.add]; rewrite ?add_NaN_r).
  reflexivity.
Qed.

(** C4.  On a canvas at least two pixels wide, for every amplitude and
    phase (finite or not) the points [drawWaveform] computes are those of the
    reference definition: [min(200, width)] points, the [i]-th with
    [t = i/(n-1)], [x = margin + t*(width - 2*margin)] and
    [y = height/2 + w*amplitude*height*0.28]; the main stroke of
    [drawWaveform] runs along exactly these points; and for a finite
    amplitude and phase every coordinate is the real number the formulas
    give.  The points are a function of the four inputs, so equal inputs give
    equal points. *)
Theorem points_match_reference :
  forall (amplitude phase : num) (w h : nat),
    (2 <= w)%nat ->
    wavePoints phase w h amplitude = Reference.points amplitude phase w h
    /\ List.length (wavePoints phase w h amplitude) = Nat.min 200 w
    /\ (exists cmds : list drawcmd,
           drawWaveform phase w h amplitude = Some cmds
           /\ In (Stroke false (lineWidth amplitude)
                    (Reference.points amplitude phase w h)) cmds)
    /\ (forall a p : R,
           amplitude = Fin a -> phase = Fin p ->
           wavePoints phase w h amplitude = Reference.realPoints a p w h).
Proof.
  intros amplitude phase w h Hw.
  assert (Heq : wavePoints phase w h amplitude
                = Reference.points amplitude phase w h).
  { unfold wavePoints, Reference.points, Reference.sampleCount, numPoints.
    apply map_ext. intro i. apply wavePoint_reference. }
  split; [exact Heq|]. split; [|split].
  - unfold wavePoints, numPoints. now rewrite length_map, length_seq.
  - unfold drawWaveform. rewrite Heq.
    destruct (Reference.points amplitude phase w h) as [|first rest] eqn:Hpts.
    + exfalso. apply (f_equal (@List.length _)) in Hpts.
      unfold Reference.points, Reference.sampleCount in Hpts.
      rewrite length_map, length_seq in Hpts. cbn [List.length] in Hpts. lia.
    + eexists. split; [reflexivity|].
      apply in_or_app. right. now left.
  - intros a p -> ->.
    unfold wavePoints, Reference.realPoints, Reference.sampleCount, numPoints.
    apply map_ext. intro i. now apply wavePoint_real.
Qed.

Lemma points_match_reference_witness :
  (2 <= width defaults)%nat /\
  wavePoints (Fin 1.57) (width defaults) (height defaults) (Fin 0.8)
  = Reference.realPoints 0.8 1.57 (width defaults) (height defaults).
Proof.
  split; [simpl; lia|].
  apply (points_match_reference (Fin 0.8) (Fin 1.57) 300 100);
    [simpl; lia|reflexivity|reflexivity].
Defined.

(** C9 fails on the code at width 1.  There [numPoints] is 1, the loop runs
    once with [t = 0 / (1 - 1)], which is NaN, and both coordinates of the
    only point are NaN, whatever the amplitude, phase and height;
    [drawWaveform] strokes a path through that point. *)
Theorem width_one_gives_NaN_point :
  forall (amplitude phase : num) (h : nat),
    wavePoints phase 1 h amplitude = [{| x := NaN; y := NaN |}]
    /\ ~ Num.isFinite (x {| x := NaN; y := NaN |})
    /\ exists cmds : list drawcmd,
         drawWaveform phase 1 h amplitude = Some cmds
         /\ In (Stroke false (lineWidth amplitude) [{| x := NaN; y := NaN |}])
              cmds.
Proof.
  intros amplitude phase h.
  pose proof (wavePoints_width_one phase amplitude h) as Hpts.
  split; [exact Hpts|]. split; [intros []|].
  unfold drawWaveform. rewrite Hpts.
  eexists. split; [reflexivity|].
  apply in_or_app. right. now left.
Qed.

(** *** The smoother *)

Lemma bounded_mono (M M' : R) (m : module) :
  (M <= M')%R -> bounded M m -> bounded M' m.
Proof.
  intros Hle [c [t [Hc [Ht [Bc Bt]]]]]. exists c, t. repeat split; try assumption; lra.
Qed.

Lemma bounded_same (M : R) (m m' : module) :
  currentAmplitude m' = currentAmplitude m ->
  targetAmplitude m' = targetAmplitude m ->
  bounded M m -> bounded M m'.
Proof.
  intros Hc Ht [c [t [Hc' [Ht' B]]]]. exists c, t. rewrite Hc, Ht. now repeat split.
Qed.

Lemma animateWaveform_bounded (cfg : Config) (now : Z) (handle : nat)
      (M : R) (m : module) :
  bounded M m -> bounded M (fst (animateWaveform cfg now handle m)).
Proof.
  intros [c [t [Hc [Ht [Bc Bt]]]]]. unfold animateWaveform.
  destruct (ctx m); [destruct (canvas m) as [cv|]|];
    try (apply bounded_same with m; [reflexivity|reflexivity|];
         exists c, t; now repeat split).
  rewrite Hc, Ht. cbn [Num.sub Num.neg Num.add Num.mul].
  match goal with
  | |- context [drawWaveform ?ph ?w ?h ?amp] =>
      destruct (drawWaveform ph w h amp)
  end; cbn [fst];
    (destruct (Z.ltb 250 (now - lastDataTime m));
     [ exists (c + (t + - c) * 0.18)%R, (t * 0.96)%R
     | exists (c + (t + - c) * 0.18)%R, t ];
     cbn; repeat split; lra).
Qed.

Lemma step_bounded (cfg : Config) (M : R) (m : module) (e : event) :
  bounded M m ->
  match sampleOf e with
  | Some a => inUnitInterval a
  | None => True
  end ->
  bounded (match sampleOf e with Some (Fin r) => Rmax r M | _ => M end)
    (step cfg m e).
Proof.
  intros Hb Hs. destruct e as [g|now n|now handle| |now handle]; cbn [step sampleOf] in *.
  - apply bounded_same with m; [reflexivity|reflexivity|assumption].
  - destruct n as [[|[a|] p]|c|name]; cbn in *;
      try (apply bounded_same with m; [try reflexivity; now destruct p ..|assumption]).
    destruct a as [r| | |]; cbn in Hs; try contradiction.
    destruct Hb as [c [t [Hc [Ht [Bc Bt]]]]].
    exists c, r. pose proof (Rmax_l r M). pose proof (Rmax_r r M).
    destruct p; cbn; repeat split; try assumption; lra.
  - now apply animateWaveform_bounded.
  - unfold suspend. destruct (animationFrame m);
      (apply bounded_same with m; [reflexivity|reflexivity|assumption]).
  - unfold resume. destruct (animationFrame m).
    + apply bounded_same with m; [reflexivity|reflexivity|assumption].
    + now apply animateWaveform_bounded.
Qed.

Lemma maxSample_nonneg (l : list num) : (0 <= maxSample l)%R.
Proof.
  induction l as [|[r| | |] l IH]; simpl; try lra; try assumption.
  pose proof (Rmax_r r (maxSample l)). lra.
Qed.

Lemma run_bounded (cfg : Config) (es : list event) :
  forall (M : R) (m : module),
    bounded M m ->
    Forall inUnitInterval (samples es) ->
    bounded (Rmax M (maxSample (samples es))) (run cfg es m).
Proof.
  induction es as [|e es IH]; intros M m Hb Hs.
  - simpl. apply bounded_mono with M; [apply Rmax_l|assumption].
  - cbn [run fold_left]. fold (run cfg es (step cfg m e)).
    assert (Hstep := step_bounded cfg M m e Hb).
    cbn [samples] in *.
    destruct (sampleOf e) as [a|].
    + inversion Hs as [|a' l Ha Hl]; subst.
      specialize (Hstep Ha).
      destruct a as [r| | |]; cbn in Ha; try contradiction.
      specialize (IH _ _ Hstep Hl). cbn [maxSample].
      eapply bounded_mono; [|exact IH].
      unfold Rmax; repeat destruct Rle_dec; lra.
    + exact (IH _ _ (Hstep I) Hs).
Qed.

Lemma start_bounded (cfg : Config) (now : Z) (handle : nat) :
  bounded 0 (fst (start cfg now handle)).
Proof.
  unfold start, animateWaveform. cbn.
  exists 0%R, 0%R. repeat split; lra.
Qed.

(** C2.  Start the module (both amplitudes are 0) and let any sequence of
    calls follow: frames at any times, samples, the canvas appearing,
    suspend and resume.  If every amplitude sample is in [[0, 1]], then
    afterwards [currentAmplitude] is a finite number between 0 and the
    largest sample seen (0 when there was none).  It exceeds that maximum
    by nothing, hence by no more than any non-negative error bound. *)
Theorem smoothed_amplitude_below_largest_sample :
  forall (cfg : Config) (now : Z) (handle : nat) (es : list event),
    Forall inUnitInterval (samples es) ->
    exists c : R,
      currentAmplitude (run cfg es (fst (start cfg now handle))) = Fin c
      /\ (0 <= c <= maxSample (samples es))%R
      /\ (forall bound : R,
             (0 <= bound)%R -> (c <= maxSample (samples es) + bound)%R).
Proof.
  intros cfg now handle es Hs.
  destruct (run_bounded cfg es 0 _ (start_bounded cfg now handle) Hs)
    as [c [t [Hc [_ [Bc _]]]]].
  rewrite Rmax_right in Bc by apply maxSample_nonneg.
  exists c. split; [exact Hc|]. split; [exact Bc|].
  intros bound Hb. lra.
Qed.

Lemma smoothed_amplitude_below_largest_sample_witness :
  Forall inUnitInterval (samples sampleSession) /\
  exists c : R,
    currentAmplitude (run defaults sampleSession started) = Fin c
    /\ (0 <= c <= maxSample (samples sampleSession))%R
    /\ (forall bound : R,
           (0 <= bound)%R -> (c <= maxSample (samples sampleSession) + bound)%R).
Proof.
  assert (H : Forall inUnitInterval (samples sampleSession)).
  { repeat constructor; simpl; lra. }
  split; [exact H|].
  exact (smoothed_amplitude_below_largest_sample defaults 0 1 sampleSession H).
Defined.


End WaveformFacts.

(* ================================================================= *)
(** ** Properties of the path from the socket to the smoother *)

Module BridgeFacts.

Import NodeHelper Waveform Bridge.
Local Open Scope string_scope.

Lemma waveformFrame_forwarded (data : string) (s : sys) (d : value) :
  waveformFrame (rt s) data d ->
  emitted (onMessage data) s = [Notify "WAVEFORM_DATA" d].
Proof.
  intro Hf.
  destruct (NodeHelperFacts.onMessage_cases data s)
    as [new [_ [_ [_ [Htr Hnew]]]]].
  rewrite (NodeHelperFacts.emitted_of_trace _ _ _ Htr).
  destruct Hnew as [[d0 [Hf0 ->]]|[Hnone _]].
  - f_equal. f_equal.
    eapply NodeHelperFacts.waveformFrame_unique; eassumption.
  - destruct (Hnone d Hf).
Qed.

(** C3, as the claim has it, fails: the waveform message with amplitude 2
    goes through the helper and the module as it is, and the smoother's
    [targetAmplitude] becomes 2, outside [[0, 1]]. *)
Lemma amplitude_two_not_clamped :
  exists m' : module,
    ingest defaults 0 "frame" loudHost started = Some m'
    /\ targetAmplitude m' = Fin 2
    /\ ~ inUnitInterval (targetAmplitude m').
Proof.
  eexists. split; [vm_compute; reflexivity|].
  split; [reflexivity|].
  simpl. lra.
Qed.

(** C3, amended.  For every inbound waveform message whose amplitude is a
    number, the helper forwards the message's data as it is and the module
    stores the amplitude as the smoother's [targetAmplitude] unchanged:
    nothing on the way clamps it. *)
Theorem amplitude_stored_as_received :
  forall (cfg : Config) (now : Z) (data : string) (s : sys) (d : value)
         (a : num) (p : option num) (m : module),
    waveformFrame (rt s) data d ->
    payloadOf d = Some (Fields (Some a) p) ->
    emitted (onMessage data) s = [Notify "WAVEFORM_DATA" d]
    /\ ingest cfg now data s m
       = Some (fst (updateWaveformData now (Fields (Some a) p) m))
    /\ targetAmplitude (fst (updateWaveformData now (Fields (Some a) p) m)) = a.
Proof.
  intros cfg now data s d a p m Hf Hp.
  pose proof (waveformFrame_forwarded data s d Hf) as He.
  split; [exact He|]. split.
  - unfold ingest. rewrite He. cbn [receivedAll received].
    unfold notificationOf. rewrite String.eqb_refl, Hp. reflexivity.
  - destruct p; reflexivity.
Qed.

Lemma amplitude_stored_as_received_witness :
  waveformFrame (rt loudHost) "frame" (VObj [("amplitude", VNum (Fin 2))]) /\
  payloadOf (VObj [("amplitude", VNum (Fin 2))])
    = Some (Fields (Some (Fin 2)) None) /\
  targetAmplitude
    (fst (updateWaveformData 0 (Fields (Some (Fin 2)) None) started)) = Fin 2.
Proof.
  assert (Hf : waveformFrame (rt loudHost) "frame"
                 (VObj [("amplitude", VNum (Fin 2))])).
  { exists loudMessage. repeat split. }
  split; [exact Hf|]. split; [reflexivity|].
  exact (proj2 (proj2 (amplitude_stored_as_received defaults 0 "frame" loudHost _
                         (Fin 2) None started Hf eq_refl))).
Defined.

End BridgeFacts.

(* ================================================================= *)
(** ** More properties of the node helper *)

Module SupervisionFacts.

Import NodeHelper Supervision.
Local Open Scope string_scope.
Local Open Scope Z_scope.

(** *** Timers: freshness and the one reconnect timer *)

Section Keeps.
Context {A B : Type}.

Lemma keeps_ret (a : A) : keeps (ret a).
Proof. intros s H. exact H. Qed.

Lemma keeps_throw (e : exn) : keeps (@throw A e).
Proof. intros s H. exact H. Qed.

Lemma keeps_bind (m : M A) (k : A -> M B) :
  keeps m -> (forall a, keeps (k a)) -> keeps (bind m k).
Proof.
  intros Hm Hk s H. unfold bind. specialize (Hm s H).
  destruct (m s) as [[a|e] s1]; simpl in *; [now apply Hk|exact Hm].
Qed.

Lemma keeps_tryCatch (body : M A) (h : exn -> M A) :
  keeps body -> (forall e, keeps (h e)) -> keeps (tryCatch body h).
Proof.
  intros Hm Hk s H. unfold tryCatch. specialize (Hm s H).
  destruct (body s) as [[a|e] s1]; simpl in *; [exact Hm|now apply Hk].
Qed.
End Keeps.

Lemma keeps_getMe : keeps getMe.
Proof. intros s H. exact H. Qed.
Lemma keeps_getRt : keeps getRt.
Proof. intros s H. exact H. Qed.
Lemma keeps_emit a : keeps (emit a).
Proof. intros s H. exact H. Qed.
Lemma keeps_setConfig c : keeps (setConfig c).
Proof. intros s H. exact H. Qed.
Lemma keeps_setWs w : keeps (setWs w).
Proof. intros s H. exact H. Qed.
Lemma keeps_setPythonProcess p : keeps (setPythonProcess p).
Proof. intros s H. exact H. Qed.

Lemma Forall_lt_S (n : nat) (l : list (nat * callback)) :
  Forall (fun p => (fst p < n)%nat) l -> Forall (fun p => (fst p < S n)%nat) l.
Proof. apply Forall_impl. intros p Hp. lia. Qed.

Lemma keeps_fresh : keeps fresh.
Proof.
  intros s [Hlt [Hnd Hrec]]. unfold fresh, bind, getRt, setRt, ret. simpl.
  repeat split; try assumption. now apply Forall_lt_S.
Qed.

Lemma keeps_spawn exe mode camera : keeps (spawn exe mode camera).
Proof.
  intros s [Hlt [Hnd Hrec]]. unfold spawn, fresh, bind, getRt, setRt, emit, ret. simpl.
  repeat split; try assumption. now apply Forall_lt_S.
Qed.

Lemma keeps_newWebSocket url : keeps (newWebSocket url).
Proof.
  intros s [Hlt [Hnd Hrec]].
  unfold newWebSocket, fresh, bind, getRt, setRt, emit, ret, throw. simpl.
  destruct (urlOk (rt s) url); simpl; repeat split; try assumption.
  now apply Forall_lt_S.
Qed.

Lemma keeps_socketClose id : keeps (socketClose id).
Proof.
  intros s H. unfold socketClose, bind, getRt, setRt, emit, ret.
  destruct (stateOf id (sockets (rt s))) as [[]|]; exact H.
Qed.

Lemma reconnectPending_app l1 l2 :
  reconnectPending (l1 ++ l2) = (reconnectPending l1 ++ reconnectPending l2)%list.
Proof. unfold reconnectPending. now rewrite filter_app, map_app. Qed.

Lemma lt_not_in (n : nat) (l : list (nat * callback)) :
  Forall (fun p => (fst p < n)%nat) l -> ~ In n (map fst l).
Proof.
  intros H Hin. apply in_map_iff in Hin as [p [Hp Hin]].
  rewrite Forall_forall in H. specialize (H p Hin). lia.
Qed.

Lemma NoDup_snoc (n : nat) (l : list nat) :
  NoDup l -> ~ In n l -> NoDup (l ++ [n]).
Proof.
  intros Hnd Hn. apply NoDup_app; [assumption|repeat constructor; intros []| ].
  intros a Ha [<-|[]]. contradiction.
Qed.

Lemma keeps_setTimeout_Relaunch delay : keeps (setTimeout Relaunch delay).
Proof.
  intros s [Hlt [Hnd Hrec]].
  unfold setTimeout, fresh, bind, getRt, setRt, emit, ret, wellTimed. simpl.
  repeat split.
  - apply Forall_app. split; [now apply Forall_lt_S|]. repeat constructor.
  - rewrite map_app. simpl. apply NoDup_snoc; [assumption|now apply lt_not_in].
  - intros id Hin. rewrite reconnectPending_app, app_nil_r in Hin. now apply Hrec.
Qed.

Lemma dropTimer_subset id p l : In p (dropTimer id l) -> In p l.
Proof. unfold dropTimer. intro H. now apply filter_In in H. Qed.

Lemma dropTimer_Forall (P : nat * callback -> Prop) id l :
  Forall P l -> Forall P (dropTimer id l).
Proof.
  intro H. apply Forall_forall. intros p Hp. rewrite Forall_forall in H.
  apply H. eapply dropTimer_subset; eassumption.
Qed.

Lemma dropTimer_NoDup id l : NoDup (map fst l) -> NoDup (map fst (dropTimer id l)).
Proof.
  induction l as [|[i c] l IH]; simpl; intro H; [constructor|].
  inversion H as [|x xs Hx Hxs]; subst.
  destruct (Nat.eqb i id); simpl; [now apply IH|].
  constructor; [|now apply IH].
  intro Hin. apply Hx. apply in_map_iff in Hin as [p [Hp Hin]].
  apply in_map_iff. exists p. split; [assumption|]. eapply dropTimer_subset; eassumption.
Qed.

Lemma reconnectPending_In id l :
  In id (reconnectPending l) <-> In (id, Reconnect) l.
Proof.
  unfold reconnectPending. rewrite in_map_iff. split.
  - intros [[i c] [Hi Hin]]. simpl in Hi. subst i.
    apply filter_In in Hin as [Hin Hc]. simpl in Hc. destruct c; [assumption|discriminate].
  - intro Hin. exists (id, Reconnect). split; [reflexivity|].
    apply filter_In. now split.
Qed.

Lemma dropTimer_not_In id c l : ~ In (id, c) (dropTimer id l).
Proof.
  unfold dropTimer. intro H. apply filter_In in H as [_ H]. simpl in H.
  rewrite Nat.eqb_refl in H. discriminate.
Qed.

Lemma dropTimer_wellTimed (id : nat) (s : sys) :
  wellTimed s ->
  wellTimed {| me := me s; rt := withTimers (rt s) (dropTimer id (timers (rt s)));
               trace := trace s |}.
Proof.
  intros [Hlt [Hnd Hrec]]. unfold wellTimed. simpl. repeat split.
  - now apply dropTimer_Forall.
  - now apply dropTimer_NoDup.
  - intros i Hi. apply Hrec. apply reconnectPending_In.
    apply reconnectPending_In in Hi. eapply dropTimer_subset; eassumption.
Qed.

Lemma keeps_clearTimeout id : keeps (clearTimeout id).
Proof.
  intros s H. unfold clearTimeout, bind, getRt, setRt, emit. simpl.
  apply (dropTimer_wellTimed id s H).
Qed.

(** After [scheduleReconnect] the timer it set is the only reconnect timer. *)
Lemma keeps_scheduleReconnect : keeps scheduleReconnect.
Proof.
  intros s [Hlt [Hnd Hrec]].
  unfold scheduleReconnect, bind, getMe, clearTimeout, setReconnectAttempts,
    log, setTimeout, fresh, setReconnectTimer, bind, getMe, getRt, setRt,
    setMe, emit, ret.
  unfold wellTimed.
  destruct (reconnectTimer (me s)) as [t|] eqn:Ht; simpl.
  - repeat split; simpl.
    + apply Forall_app. split; [|repeat constructor].
      apply Forall_lt_S. now apply dropTimer_Forall.
    + rewrite map_app. simpl. apply NoDup_snoc; [now apply dropTimer_NoDup|].
      apply lt_not_in. now apply dropTimer_Forall.
    + intros id Hin. rewrite reconnectPending_app in Hin.
      apply in_app_or in Hin as [Hin|[<-|[]]]; [|reflexivity].
      exfalso. apply reconnectPending_In in Hin.
      assert (Hid : Some t = Some id).
      { apply Hrec. apply reconnectPending_In. eapply dropTimer_subset; eassumption. }
      injection Hid as ->. exact (dropTimer_not_In _ _ _ Hin).
  - repeat split; simpl.
    + apply Forall_app. split; [|repeat constructor]. now apply Forall_lt_S.
    + rewrite map_app. simpl. apply NoDup_snoc; [assumption|now apply lt_not_in].
    + intros id Hin. rewrite reconnectPending_app in Hin.
      apply in_app_or in Hin as [Hin|[<-|[]]]; [|reflexivity].
      specialize (Hrec id Hin). discriminate.
Qed.

Create HintDb keeps.
#[local] Hint Resolve keeps_getMe keeps_getRt keeps_emit keeps_setConfig
  keeps_setWs keeps_setPythonProcess keeps_fresh keeps_spawn
  keeps_newWebSocket keeps_socketClose keeps_setTimeout_Relaunch
  keeps_clearTimeout keeps_scheduleReconnect : keeps.

Ltac keep_step :=
  first
    [ apply keeps_ret
    | apply keeps_throw
    | solve [auto with keeps]
    | apply keeps_bind; [ | intro ]
    | apply keeps_tryCatch; [ | intro ]
    | match goal with
      | |- keeps (match ?x with _ => _ end) => destruct x
      end ].
Ltac keep_all := cbv zeta; repeat keep_step.

Lemma keeps_startPythonBackend : keeps startPythonBackend.
Proof. unfold startPythonBackend, theConfig, log, logError. keep_all. Qed.

#[local] Hint Resolve keeps_startPythonBackend : keeps.

Lemma keeps_connectWebSocket : keeps connectWebSocket.
Proof. unfold connectWebSocket, theConfig, log, logError. keep_all. Qed.

Lemma keeps_onChildClose code : keeps (onChildClose code).
Proof. unfold onChildClose, log. keep_all. Qed.

Lemma keeps_relaunch : keeps relaunch.
Proof. unfold relaunch. keep_all. Qed.

Lemma keeps_onMessage data : keeps (onMessage data).
Proof. unfold onMessage, sendSocketNotification, logError. keep_all. Qed.

Lemma keeps_onClose : keeps onClose.
Proof. unfold onClose, sendSocketNotification, log. keep_all. Qed.

Lemma keeps_onError : keeps onError.
Proof. unfold onError, sendSocketNotification, logError. keep_all. Qed.

Lemma keeps_setReconnectAttempts n : keeps (setReconnectAttempts n).
Proof. intros s H. exact H. Qed.

Lemma keeps_socketSend id msg : keeps (socketSend id msg).
Proof. unfold socketSend. keep_all. Qed.

#[local] Hint Resolve keeps_connectWebSocket keeps_onChildClose keeps_relaunch
  keeps_onMessage keeps_onClose keeps_onError keeps_setReconnectAttempts
  keeps_socketSend : keeps.

Lemma keeps_onOpen : keeps onOpen.
Proof. unfold onOpen, sendSocketNotification, log, theConfig. keep_all. Qed.

Lemma keeps_socketNotificationReceived n p : keeps (socketNotificationReceived n p).
Proof. unfold socketNotificationReceived. keep_all. Qed.

(** [stop] clears the tracked timer before it forgets it. *)
Lemma keeps_stop : keeps stop.
Proof.
  unfold stop. apply keeps_bind; [unfold log; auto with keeps|intros _].
  intros s H. unfold bind at 1, getMe at 1.
  cbn [fst snd].
  assert (H1 : wellTimed
                 (snd ((match reconnectTimer (me s) with
                        | Some t => clearTimeout t ;; setReconnectTimer None
                        | None => ret tt
                        end) s))).
  { destruct (reconnectTimer (me s)) as [t|] eqn:Ht; [|exact H].
    unfold bind, clearTimeout, setReconnectTimer, bind, getRt, getMe, setRt,
      setMe, emit. simpl.
    destruct H as [Hlt [Hnd Hrec]]. unfold wellTimed. simpl. repeat split.
    - now apply dropTimer_Forall.
    - now apply dropTimer_NoDup.
    - intros id Hin. exfalso. apply reconnectPending_In in Hin.
      assert (Hid : Some t = Some id).
      { rewrite <- Ht. apply Hrec. apply reconnectPending_In.
        eapply dropTimer_subset; eassumption. }
      injection Hid as ->. exact (dropTimer_not_In _ _ _ Hin). }
  unfold bind at 1.
  destruct ((match reconnectTimer (me s) with
             | Some t => clearTimeout t ;; setReconnectTimer None
             | None => ret tt
             end) s) as [[u|x] s1]; cbn [snd] in *; [|exact H1].
  revert s1 H1.
  change (keeps (match ws (me s) with
                 | Some id => socketClose id ;; setWs None
                 | None => ret tt
                 end ;;
                 match pythonProcess (me s) with
                 | Some p => kill p ;; setPythonProcess None
                 | None => ret tt
                 end)).
  unfold kill. keep_all.
Qed.

Lemma keeps_handler (r : host) (e : event) :
  notStart e = true -> keeps (handler r e).
Proof.
  destruct e; simpl; intro H; try discriminate;
    auto using keeps_socketNotificationReceived, keeps_stop, keeps_onOpen
      with keeps.
  destruct (pending id (timers r)) as [[|]|]; auto with keeps.
Qed.

Lemma arrive_wellTimed (s : sys) (e : event) :
  wellTimed s ->
  wellTimed {| me := me s; rt := arrive (rt s) e; trace := trace s |}.
Proof.
  intro H. destruct e; try exact H.
  apply (dropTimer_wellTimed id s H).
Qed.

Lemma step_wellTimed (s s' : sys) (e : event) :
  notStart e = true -> step s e = Some s' -> wellTimed s -> wellTimed s'.
Proof.
  intros He Hstep H. unfold step in Hstep.
  destruct (enabled (rt s) e); [|discriminate]. injection Hstep as <-.
  unfold dispatch.
  pose proof (keeps_handler (rt s) e He _ (arrive_wellTimed s e H)) as Hk.
  destruct (handler (rt s) e _) as [[u|x] s1]; exact Hk.
Qed.

Lemma run_wellTimed (es : list event) :
  forall s s', forallb notStart es = true -> run es s = Some s' ->
               wellTimed s -> wellTimed s'.
Proof.
  induction es as [|e es IH]; intros s s' Hf Hrun H; simpl in *.
  - now injection Hrun as <-.
  - apply andb_true_iff in Hf as [He Hes].
    destruct (step s e) as [s1|] eqn:Hstep; [|discriminate].
    eapply IH; [eassumption|eassumption|].
    eapply step_wellTimed; eassumption.
Qed.

Lemma reconnectPending_NoDup (l : list (nat * callback)) :
  NoDup (map fst l) -> NoDup (reconnectPending l).
Proof.
  unfold reconnectPending.
  induction l as [|[i c] l IH]; simpl; intro H; [constructor|].
  inversion H as [|x xs Hx Hxs]; subst.
  destruct c; simpl; [|now apply IH].
  constructor; [|now apply IH].
  intro Hin. apply Hx. apply in_map_iff in Hin as [p [Hp Hin]].
  apply in_map_iff. exists p. split; [assumption|].
  now apply filter_In in Hin.
Qed.

Lemma wellTimed_at_most_one (s : sys) :
  wellTimed s -> (List.length (reconnectPending (timers (rt s))) <= 1)%nat.
Proof.
  intros [_ [Hnd Hrec]].
  pose proof (reconnectPending_NoDup _ Hnd) as Hn.
  destruct (reconnectPending (timers (rt s))) as [|a [|b l]]; simpl; try lia.
  exfalso.
  assert (Ha : reconnectTimer (me s) = Some a) by (apply Hrec; now left).
  assert (Hb : reconnectTimer (me s) = Some b) by (apply Hrec; right; now left).
  inversion Hn as [|x xs Hx _]; subst. apply Hx. left. congruence.
Qed.

(** X9.  In every run that begins with [start], at most one reconnect timer
    is pending at any time, and it is the one [this.reconnectTimer] names:
    [scheduleReconnect] and [stop] clear the old one first. *)
Theorem one_reconnect_timer_pending :
  forall (env venv : bool) (okUrl : string -> bool)
         (parse : string -> option value) (es : list event) (s : sys),
    forallb notStart es = true ->
    run (EvStart :: es) (boot env venv okUrl parse) = Some s ->
    (List.length (reconnectPending (timers (rt s))) <= 1)%nat
    /\ (forall id, In id (reconnectPending (timers (rt s))) ->
                   reconnectTimer (me s) = Some id).
Proof.
  intros env venv okUrl parse es s Hf Hrun.
  assert (H : wellTimed s).
  { cbn [run] in Hrun.
    destruct (step (boot env venv okUrl parse) EvStart) as [s1|] eqn:Hs;
      [|discriminate].
    eapply run_wellTimed; [eassumption|eassumption|].
    vm_compute in Hs. injection Hs as <-.
    unfold wellTimed. simpl. repeat split; try constructor. intros id []. }
  split; [now apply wellTimed_at_most_one|apply H].
Qed.

Lemma backoff_range (k : Z) : 1 <= k -> delayInRange (backoff k).
Proof.
  intro H. unfold delayInRange, backoff.
  assert (H2 : 2 ^ 1 <= 2 ^ k) by (apply Z.pow_le_mono_r; lia).
  change (2 ^ 1) with 2 in H2. lia.
Qed.

Lemma advances_sane (n : nat) (s s' : sys) :
  NodeHelper.advances n s s' -> sane s -> sane s'.
Proof.
  intros [Ha Hd] [H0 Hr]. split; [lia|].
  rewrite Hd. apply Forall_app. split; [assumption|].
  apply Forall_forall. intros d Hin. apply in_map_iff in Hin as [k [<- Hk]].
  apply in_seq in Hk. apply backoff_range. lia.
Qed.

Lemma start_sane (s : sys) : sane s -> sane (dispatch start s).
Proof.
  intros [_ Hr]. unfold dispatch, start, bind, log, emit, setMe. simpl.
  split; [simpl; lia|]. simpl.
  rewrite NodeHelperFacts.reconnectDelays_app. simpl. now rewrite app_nil_r.
Qed.

Lemma onOpen_delays (s : sys) :
  reconnectDelays (trace (dispatch onOpen s)) = reconnectDelays (trace s).
Proof.
  unfold dispatch, onOpen, bind, log, sendSocketNotification, emit,
    setReconnectAttempts, bind, getMe, setMe, theConfig, socketSend,
    bind, getMe, getRt, throw, ret.
  simpl.
  destruct (ws (me s)) as [id|]; simpl.
  - destruct (config (me s)); simpl.
    + destruct (stateOf id (sockets (rt s))) as [[]|]; simpl;
        repeat rewrite NodeHelperFacts.reconnectDelays_app; simpl;
        repeat rewrite app_nil_r; reflexivity.
    + repeat rewrite NodeHelperFacts.reconnectDelays_app; simpl;
        repeat rewrite app_nil_r; reflexivity.
  - repeat rewrite NodeHelperFacts.reconnectDelays_app; simpl;
      repeat rewrite app_nil_r; reflexivity.
Qed.

Lemma onOpen_attempts (s : sys) : reconnectAttempts (me (dispatch onOpen s)) = 0.
Proof.
  unfold dispatch. pose proof (NodeHelperFacts.onOpen_resets s) as H.
  destruct (onOpen s) as [[u|x] s1]; exact H.
Qed.

Lemma step_sane (s s' : sys) (e : event) :
  step s e = Some s' -> sane s -> sane s'.
Proof.
  intros Hstep H. destruct (failure e) eqn:Hf.
  - destruct (NodeHelperFacts.step_advances s s' e Hf Hstep) as [n Hn].
    eapply advances_sane; eassumption.
  - unfold step in Hstep. destruct (enabled (rt s) e); [|discriminate].
    injection Hstep as <-.
    destruct e; try discriminate; cbn [handler arrive].
    + apply start_sane. exact H.
    + split.
      * rewrite onOpen_attempts. lia.
      * rewrite onOpen_delays. apply H.
Qed.

(** X8.  In every run of the helper from boot, whatever the events, the
    counter is never negative and every reconnect timer ever set has a delay
    between 2000 and 30000 ms. *)
Theorem reconnect_delays_always_in_range :
  forall (env venv : bool) (okUrl : string -> bool)
         (parse : string -> option value) (es : list event) (s : sys),
    run es (boot env venv okUrl parse) = Some s ->
    0 <= reconnectAttempts (me s)
    /\ Forall delayInRange (reconnectDelays (trace s)).
Proof.
  intros env venv okUrl parse es.
  assert (H0 : sane (boot env venv okUrl parse)) by (split; [simpl; lia|constructor]).
  revert H0. generalize (boot env venv okUrl parse).
  induction es as [|e es IH]; intros s0 H0 s Hrun; simpl in Hrun.
  - injection Hrun as <-. exact H0.
  - destruct (step s0 e) as [s1|] eqn:Hs; [|discriminate].
    eapply IH; [|eassumption]. eapply step_sane; eassumption.
Qed.

Lemma startPythonBackend_launch (s : sys) (c : Config) :
  envFile (rt s) = true -> pythonProcess (me s) = None -> config (me s) = Some c ->
  startPythonBackend s
  = (Ok tt,
     {| me := {| config := config (me s); ws := ws (me s);
                 pythonProcess := Some (nextId (rt s));
                 reconnectTimer := reconnectTimer (me s);
                 reconnectAttempts := reconnectAttempts (me s) |};
        rt := withChildren (bump (rt s)) (children (rt s) ++ [nextId (rt s)]);
        trace := (trace s ++ [Log "Starting Python backend: "; spawnOf (rt s) c])%list |}).
Proof.
  intros Henv Hproc Hcfg.
  unfold startPythonBackend, bind, getMe, getRt, log, emit, theConfig, bind,
    getMe, ret, spawn, fresh, bind, getRt, setRt, emit, ret, setPythonProcess,
    bind, getMe, setMe.
  simpl. rewrite Hproc, Henv. simpl. rewrite Hcfg. simpl.
  rewrite <- app_assoc. rewrite ?Hcfg. reflexivity.
Qed.

(** X1.  A launch attempt with the credential file present, no child
    tracked and a config: it returns normally, logs, spawns exactly one
    child and tracks it.  The executable is the venv's python when that file
    exists and python3 otherwise; the mode is the config's [videoMode], or
    "camera" when that is empty; the camera index is the config's, or 0 when
    it is missing.  No timer is touched. *)
Theorem launch_passes_defaults :
  forall (s : sys) (c : Config),
    envFile (rt s) = true ->
    pythonProcess (me s) = None ->
    config (me s) = Some c ->
    fst (startPythonBackend s) = Ok tt
    /\ emitted startPythonBackend s
       = [Log "Starting Python backend: "; spawnOf (rt s) c]
    /\ pythonProcess (me (snd (startPythonBackend s))) = Some (nextId (rt s))
    /\ children (rt (snd (startPythonBackend s)))
       = (children (rt s) ++ [nextId (rt s)])%list
    /\ timers (rt (snd (startPythonBackend s))) = timers (rt s)
    /\ (videoMode c = "" -> cameraIndex c = None ->
        spawnOf (rt s) c
        = Spawn (nextId (rt s))
            (if venvPython (rt s) then pythonPath else "python3") "camera" 0).
Proof.
  intros s c Henv Hproc Hcfg.
  pose proof (startPythonBackend_launch s c Henv Hproc Hcfg) as Hrun.
  assert (He : emitted startPythonBackend s
               = [Log "Starting Python backend: "; spawnOf (rt s) c]).
  { apply NodeHelperFacts.emitted_of_trace. now rewrite Hrun. }
  rewrite He, Hrun. simpl. repeat split.
  intros Hm Hi. unfold spawnOf. now rewrite Hm, Hi.
Qed.

Lemma pending_fresh (id : nat) (cb : callback) (l : list (nat * callback)) :
  Forall (fun p => (fst p < id)%nat) l -> pending id (l ++ [(id, cb)]) = Some cb.
Proof.
  induction l as [|[i c] l IH]; simpl; intro H.
  - now rewrite Nat.eqb_refl.
  - inversion H as [|x xs Hx Hxs]; subst. simpl in Hx.
    destruct (Nat.eqb_spec i id); [lia|now apply IH].
Qed.

Lemma existsb_In (pid : nat) (l : list nat) :
  In pid l -> existsb (Nat.eqb pid) l = true.
Proof.
  intro H. apply existsb_exists. exists pid. split; [assumption|apply Nat.eqb_refl].
Qed.

(** X2.  When a running child closes (any exit code) while a config is set
    and the credential file is there, the helper forgets it and sets a
    5000 ms timer; when that timer fires a new child is spawned and tracked.
    Nothing bounds how often this repeats. *)
Theorem crashed_backend_is_relaunched :
  forall (s : sys) (pid : nat) (code : Z) (c : Config),
    In pid (children (rt s)) ->
    Forall (fun p => (fst p < nextId (rt s))%nat) (timers (rt s)) ->
    config (me s) = Some c ->
    envFile (rt s) = true ->
    exists s' : sys,
      run [EvChildClose pid code; EvTimer (nextId (rt s))] s = Some s'
      /\ skipn (List.length (trace s)) (trace s')
         = [Log "Python process exited with code ";
            TimerSet (nextId (rt s)) Relaunch 5000;
            Log "Starting Python backend: ";
            Spawn (S (nextId (rt s)))
              (if venvPython (rt s) then pythonPath else "python3")
              (if String.eqb (videoMode c) "" then "camera" else videoMode c)
              (match cameraIndex c with Some i => i | None => 0 end)]
      /\ pythonProcess (me s') = Some (S (nextId (rt s)))
      /\ In (S (nextId (rt s))) (children (rt s'))
      /\ timers (rt s') = timers (rt s).
Proof.
  intros s pid code c Hin Hlt Hcfg Henv.
  set (s1 := {| me := {| config := config (me s); ws := ws (me s);
                         pythonProcess := None;
                         reconnectTimer := reconnectTimer (me s);
                         reconnectAttempts := reconnectAttempts (me s) |};
                rt := withTimers
                        (bump (withChildren (rt s)
                                 (filter (fun p => negb (Nat.eqb p pid))
                                    (children (rt s)))))
                        (timers (rt s) ++ [(nextId (rt s), Relaunch)]);
                trace := (trace s
                          ++ [Log "Python process exited with code ";
                              TimerSet (nextId (rt s)) Relaunch 5000])%list |}).
  assert (H1 : step s (EvChildClose pid code) = Some s1).
  { unfold step. cbn [enabled]. rewrite (existsb_In _ _ Hin).
    unfold dispatch. cbn [handler arrive].
    unfold onChildClose, bind, log, emit, setPythonProcess, bind, getMe, setMe,
      setTimeout, fresh, bind, getRt, setRt, emit, ret.
    simpl. rewrite <- app_assoc. reflexivity. }
  assert (Hp : pending (nextId (rt s)) (timers (rt s1)) = Some Relaunch).
  { apply pending_fresh. exact Hlt. }
  assert (Hdrop : dropTimer (nextId (rt s)) (timers (rt s1)) = timers (rt s)).
  { unfold s1. simpl. unfold dropTimer. rewrite filter_app. simpl.
    rewrite Nat.eqb_refl. simpl. rewrite app_nil_r.
    apply forallb_filter_id. apply forallb_forall. intros p Hpin.
    rewrite Forall_forall in Hlt. specialize (Hlt p Hpin).
    destruct (Nat.eqb_spec (fst p) (nextId (rt s))); [lia|reflexivity]. }
  eexists. split.
  - cbn [run]. rewrite H1. unfold step. cbn [enabled]. rewrite Hp.
    unfold dispatch. cbn [handler arrive]. rewrite Hp.
    unfold relaunch, bind at 1, getMe at 1. cbn [me s1 config].
    rewrite Hcfg.
    rewrite (startPythonBackend_launch _ c); [reflexivity|exact Henv|reflexivity|reflexivity].
  - cbn [trace me rt]. rewrite Hdrop. unfold spawnOf, s1. simpl.
    repeat split.
    + rewrite <- app_assoc. rewrite skipn_app, skipn_all, Nat.sub_diag. reflexivity.
    + apply in_or_app. right. now left.
Qed.

(** X3.  A CONFIG notification that arrives while the backend runs and the
    socket is open only replaces the stored config: nothing is logged,
    spawned, opened or scheduled, and the host is left as it was. *)
Theorem repeated_config_is_harmless :
  forall (s : sys) (payload : Config) (pid id : nat),
    pythonProcess (me s) = Some pid ->
    ws (me s) = Some id ->
    stateOf id (sockets (rt s)) = Some OPEN ->
    fst (socketNotificationReceived "CONFIG" payload s) = Ok tt
    /\ emitted (socketNotificationReceived "CONFIG" payload) s = []
    /\ rt (snd (socketNotificationReceived "CONFIG" payload s)) = rt s
    /\ me (snd (socketNotificationReceived "CONFIG" payload s))
       = {| config := Some payload; ws := Some id; pythonProcess := Some pid;
            reconnectTimer := reconnectTimer (me s);
            reconnectAttempts := reconnectAttempts (me s) |}.
Proof.
  intros s payload pid id Hp Hw Hopen.
  assert (Hrun : socketNotificationReceived "CONFIG" payload s
                 = (Ok tt,
                    {| me := {| config := Some payload; ws := Some id;
                                pythonProcess := Some pid;
                                reconnectTimer := reconnectTimer (me s);
                                reconnectAttempts := reconnectAttempts (me s) |};
                       rt := rt s; trace := trace s |})).
  { unfold socketNotificationReceived. cbn [String.eqb Ascii.eqb Bool.eqb].
    unfold setConfig, startPythonBackend, connectWebSocket, bind, getMe, getRt,
      setMe, ret. simpl. rewrite Hp. simpl. rewrite Hw. simpl.
    rewrite Hopen. reflexivity. }
  assert (He : emitted (socketNotificationReceived "CONFIG" payload) s = []).
  { apply NodeHelperFacts.emitted_of_trace. rewrite Hrun. simpl.
    now rewrite app_nil_r. }
  rewrite He, Hrun. simpl. repeat split.
Qed.

(** X4.  When the [WebSocket] constructor throws on the URL,
    [connectWebSocket] catches it: it returns normally, logs the failure,
    keeps [this.ws] and the sockets as they were, raises the counter by one
    and sets one reconnect timer with the delay of that attempt.  Unlike the
    close handler it sends no Disconnected status. *)
Theorem bad_url_schedules_reconnect :
  forall (s : sys) (c : Config),
    config (me s) = Some c ->
    isOpen (rt s) (ws (me s)) = false ->
    urlOk (rt s) (wsUrl c) = false ->
    fst (connectWebSocket s) = Ok tt
    /\ ws (me (snd (connectWebSocket s))) = ws (me s)
    /\ sockets (rt (snd (connectWebSocket s))) = sockets (rt s)
    /\ reconnectAttempts (me (snd (connectWebSocket s)))
       = reconnectAttempts (me s) + 1
    /\ reconnectTimer (me (snd (connectWebSocket s))) = Some (nextId (rt s))
    /\ In (TimerSet (nextId (rt s)) Reconnect
             (backoff (reconnectAttempts (me s) + 1)))
         (emitted connectWebSocket s)
    /\ count isReconnectSet (emitted connectWebSocket s) = 1%nat
    /\ count isDisconnected (emitted connectWebSocket s) = 0%nat
    /\ In (LogError "Failed to create WebSocket:") (emitted connectWebSocket s).
Proof.
  intros s c Hcfg Hopen Hurl.
  assert (Hrun :
    exists cleared,
      (cleared = [] \/ exists t, cleared = [TimerClear t]) /\
      fst (connectWebSocket s) = Ok tt /\
      ws (me (snd (connectWebSocket s))) = ws (me s) /\
      sockets (rt (snd (connectWebSocket s))) = sockets (rt s) /\
      reconnectAttempts (me (snd (connectWebSocket s)))
        = reconnectAttempts (me s) + 1 /\
      reconnectTimer (me (snd (connectWebSocket s))) = Some (nextId (rt s)) /\
      trace (snd (connectWebSocket s))
      = (trace s
         ++ [Log "Connecting to WebSocket: ";
             LogError "Failed to create WebSocket:"]
         ++ cleared
         ++ [Log "Scheduling reconnect in ";
             TimerSet (nextId (rt s)) Reconnect
               (backoff (reconnectAttempts (me s) + 1))])%list).
  { unfold wsUrl in Hurl. simpl in Hurl.
    unfold connectWebSocket, tryCatch, newWebSocket, theConfig,
      scheduleReconnect, bind, logError, log, emit, getMe,
      setReconnectAttempts, setTimeout, fresh, setReconnectTimer, clearTimeout,
      bind, getMe, getRt, setRt, setMe, emit, ret, throw.
    simpl. rewrite Hopen. simpl. rewrite Hcfg. simpl. rewrite Hurl. simpl.
    destruct (reconnectTimer (me s)) as [t|]; simpl.
    - exists [TimerClear t]. split; [right; now exists t|].
      repeat rewrite <- app_assoc. repeat split.
    - exists []. split; [now left|].
      repeat rewrite <- app_assoc. repeat split. }
  destruct Hrun as [cleared [Hc [Hok [Hws [Hso [Ha [Ht Htr]]]]]]].
  rewrite (NodeHelperFacts.emitted_of_trace _ _ _ Htr).
  repeat split; try assumption.
  - destruct Hc as [->|[t ->]]; simpl; tauto.
  - destruct Hc as [->|[t ->]]; reflexivity.
  - destruct Hc as [->|[t ->]]; reflexivity.
  - simpl. tauto.
Qed.

(** X5.  A reconnect timer that fires while the tracked socket is open does
    nothing: the timer is gone, and the helper, the sockets and the trace are
    as before. *)
Theorem reconnect_timer_while_open_does_nothing :
  forall (s : sys) (t id : nat),
    pending t (timers (rt s)) = Some Reconnect ->
    ws (me s) = Some id ->
    stateOf id (sockets (rt s)) = Some OPEN ->
    step s (EvTimer t)
    = Some {| me := me s;
              rt := withTimers (rt s) (dropTimer t (timers (rt s)));
              trace := trace s |}.
Proof.
  intros s t id Hp Hw Hopen.
  unfold step. cbn [enabled]. rewrite Hp. cbn [handler arrive]. rewrite Hp.
  unfold dispatch, connectWebSocket, bind, getMe, getRt. simpl.
  rewrite Hw. simpl. rewrite Hopen. reflexivity.
Qed.

Lemma stateOf_setState (id : nat) (st old : readyState) (l : list (nat * readyState)) :
  stateOf id l = Some old -> stateOf id (setState id st l) = Some st.
Proof.
  induction l as [|[i o] l IH]; simpl; [discriminate|].
  destruct (Nat.eqb i id) eqn:E; simpl; rewrite E; [reflexivity|exact IH].
Qed.

(** X6.  When the tracked socket opens and a config is set, the helper logs,
    resets the counter to 0, reports Connected and sends exactly one message
    on that socket: type "config" with the config's [updateInterval] and
    [animationSpeed]. *)
Theorem open_resets_and_sends_handshake :
  forall (s : sys) (id : nat) (c : Config),
    ws (me s) = Some id ->
    stateOf id (sockets (rt s)) = Some CONNECTING ->
    config (me s) = Some c ->
    exists s' : sys,
      step s (EvWsOpen id) = Some s'
      /\ skipn (List.length (trace s)) (trace s')
         = [Log "WebSocket connected";
            Notify "CONNECTION_STATUS" (connectionStatus true);
            SocketSend id (handshake c)]
      /\ reconnectAttempts (me s') = 0
      /\ stateOf id (sockets (rt s')) = Some OPEN
      /\ ws (me s') = Some id
      /\ timers (rt s') = timers (rt s).
Proof.
  intros s id c Hw Hst Hcfg.
  pose proof (stateOf_setState id OPEN _ _ Hst) as Hopen.
  exists {| me := {| config := config (me s); ws := ws (me s);
                     pythonProcess := pythonProcess (me s);
                     reconnectTimer := reconnectTimer (me s);
                     reconnectAttempts := 0 |};
            rt := withSockets (rt s) (setState id OPEN (sockets (rt s)));
            trace := (trace s
                      ++ [Log "WebSocket connected";
                          Notify "CONNECTION_STATUS" (connectionStatus true);
                          SocketSend id (handshake c)])%list |}.
  split.
  - unfold step. cbn [enabled]. rewrite Hst. cbn [handler arrive].
    unfold dispatch, onOpen, bind, log, sendSocketNotification, emit,
      setReconnectAttempts, bind, getMe, setMe, theConfig, socketSend,
      bind, getMe, getRt, throw, ret, emit.
    simpl. rewrite Hw. simpl. rewrite Hcfg. simpl. rewrite Hopen. simpl.
    repeat rewrite <- app_assoc. rewrite ?Hw, ?Hcfg. reflexivity.
  - simpl. repeat split; try assumption.
    rewrite skipn_app, skipn_all, Nat.sub_diag. reflexivity.
Qed.

Lemma pending_dropTimer (t : nat) (l : list (nat * callback)) :
  pending t (dropTimer t l) = None.
Proof.
  induction l as [|[i c] l IH]; simpl; [reflexivity|].
  destruct (Nat.eqb i t) eqn:E; simpl; [exact IH|]. now rewrite E.
Qed.

Lemma stop_result (s : sys) :
  stop s
  = (Ok tt,
     {| me := stopped (me s); rt := stopHost (me s) (rt s);
        trace := (trace s
                  ++ Log "Stopping node helper for: " :: stopActions (me s))%list |}).
Proof.
  unfold stop, stopActions, stopHost, stopped, bind, log, emit, getMe,
    clearTimeout, setReconnectTimer, socketClose, setWs, kill,
    setPythonProcess, bind, getMe, getRt, setRt, setMe, emit, ret.
  destruct s as [[c [id|] [pid|] [t|] a] r tr]; simpl;
    try (destruct (stateOf id _) as [[]|]; simpl);
    repeat rewrite <- app_assoc; reflexivity.
Qed.

(** X7.  [stop] always returns normally and leaves the timer, socket and
    child fields unset, with the config and the counter untouched.  The
    tracked reconnect timer is no longer pending, the tracked socket was
    closed and is neither open nor connecting, the tracked child was
    killed.  A second [stop] right after only writes its log line. *)
Theorem stop_releases_and_is_idempotent :
  forall s : sys,
    fst (stop s) = Ok tt
    /\ reconnectTimer (me (snd (stop s))) = None
    /\ ws (me (snd (stop s))) = None
    /\ pythonProcess (me (snd (stop s))) = None
    /\ config (me (snd (stop s))) = config (me s)
    /\ reconnectAttempts (me (snd (stop s))) = reconnectAttempts (me s)
    /\ (forall t, reconnectTimer (me s) = Some t ->
                  pending t (timers (rt (snd (stop s)))) = None)
    /\ (forall id, ws (me s) = Some id ->
                   In (SocketClose id) (emitted stop s)
                   /\ stateOf id (sockets (rt (snd (stop s)))) <> Some OPEN
                   /\ stateOf id (sockets (rt (snd (stop s)))) <> Some CONNECTING)
    /\ (forall pid, pythonProcess (me s) = Some pid ->
                    In (Kill pid) (emitted stop s))
    /\ emitted stop (snd (stop s)) = [Log "Stopping node helper for: "]
    /\ me (snd (stop (snd (stop s)))) = me (snd (stop s))
    /\ rt (snd (stop (snd (stop s)))) = rt (snd (stop s)).
Proof.
  intro s.
  assert (He : emitted stop s
               = Log "Stopping node helper for: " :: stopActions (me s)).
  { apply NodeHelperFacts.emitted_of_trace. now rewrite stop_result. }
  assert (He2 : emitted stop (snd (stop s)) = [Log "Stopping node helper for: "]).
  { apply NodeHelperFacts.emitted_of_trace. now rewrite !stop_result. }
  rewrite He2, He, !stop_result. cbn [fst snd me rt stopped config ws
    pythonProcess reconnectTimer reconnectAttempts].
  do 6 (split; [reflexivity|]).
  split.
  { intros t Ht. unfold stopHost. rewrite Ht. cbn zeta.
    destruct (ws (me s)) as [id|]; cbn [timers withTimers];
      [destruct (stateOf id _) as [[]|]|]; cbn [timers withTimers withSockets];
      apply pending_dropTimer. }
  split.
  { intros id Hw. split.
    - unfold stopActions. rewrite Hw. apply in_cons, in_or_app. right. now left.
    - unfold stopHost. rewrite Hw. cbn zeta.
      destruct (reconnectTimer (me s)); cbn [sockets withTimers];
        (destruct (stateOf id (sockets (rt s))) as [[]|] eqn:Hst;
         cbn [sockets withSockets withTimers];
         rewrite ?(stateOf_setState _ CLOSING _ _ Hst), ?Hst;
         split; discriminate). }
  split.
  { intros pid Hp. unfold stopActions. rewrite Hp.
    apply in_cons, in_or_app. right. apply in_or_app. right. now left. }
  repeat split.
Qed.

(** *** No spawn while the credential file is missing *)

Lemma barren_refl (s s' : sys) :
  envFile (rt s') = envFile (rt s) ->
  count isSpawn (trace s') = count isSpawn (trace s) -> barren s s'.
Proof. intros Hr Ht He. rewrite Hr. now split. Qed.

Lemma barren_trans (s1 s2 s3 : sys) : barren s1 s2 -> barren s2 s3 -> barren s1 s3.
Proof.
  intros H12 H23 He. destruct (H12 He) as [He2 Hc2].
  destruct (H23 He2) as [He3 Hc3]. split; [assumption|lia].
Qed.

Section Spawnless.
Context {A B : Type}.

Lemma spawnless_ret (a : A) : spawnless (ret a).
Proof. intro s. now apply barren_refl. Qed.

Lemma spawnless_throw (e : exn) : spawnless (@throw A e).
Proof. intro s. now apply barren_refl. Qed.

Lemma spawnless_bind (m : M A) (k : A -> M B) :
  spawnless m -> (forall a, spawnless (k a)) -> spawnless (bind m k).
Proof.
  intros Hm Hk s. unfold bind. specialize (Hm s).
  destruct (m s) as [[a|e] s1]; simpl in *; [|exact Hm].
  eapply barren_trans; [exact Hm|apply Hk].
Qed.

Lemma spawnless_tryCatch (body : M A) (h : exn -> M A) :
  spawnless body -> (forall e, spawnless (h e)) -> spawnless (tryCatch body h).
Proof.
  intros Hm Hk s. unfold tryCatch. specialize (Hm s).
  destruct (body s) as [[a|e] s1]; simpl in *; [exact Hm|].
  eapply barren_trans; [exact Hm|apply Hk].
Qed.
End Spawnless.

Lemma count_snoc (p : action -> bool) (tr : list action) (a : action) :
  p a = false -> count p (tr ++ [a]) = count p tr.
Proof.
  intro H. rewrite NodeHelperFacts.count_app. unfold count at 2. simpl.
  rewrite H. simpl. lia.
Qed.

Lemma spawnless_getMe : spawnless getMe.
Proof. intro s. now apply barren_refl. Qed.
Lemma spawnless_getRt : spawnless getRt.
Proof. intro s. now apply barren_refl. Qed.
Lemma spawnless_setMe h : spawnless (setMe h).
Proof. intro s. now apply barren_refl. Qed.
Lemma spawnless_emit a : isSpawn a = false -> spawnless (emit a).
Proof. intros Ha s. apply barren_refl; [reflexivity|]. simpl. now apply count_snoc. Qed.

Lemma spawnless_setTimeout cb d : spawnless (setTimeout cb d).
Proof.
  intros s He. unfold setTimeout, fresh, bind, getRt, setRt, emit, ret. simpl.
  split; [assumption|]. now apply count_snoc.
Qed.

Lemma spawnless_clearTimeout t : spawnless (clearTimeout t).
Proof.
  intros s He. unfold clearTimeout, bind, getRt, setRt, emit. simpl.
  split; [assumption|]. now apply count_snoc.
Qed.

Lemma spawnless_newWebSocket url : spawnless (newWebSocket url).
Proof.
  intros s He. unfold newWebSocket, fresh, bind, getRt, setRt, emit, ret, throw.
  simpl. destruct (urlOk (rt s) url); simpl; split; try assumption; try reflexivity.
  now apply count_snoc.
Qed.

Lemma spawnless_socketClose id : spawnless (socketClose id).
Proof.
  intros s He. unfold socketClose, bind, getRt, setRt, emit, ret.
  destruct (stateOf id (sockets (rt s))) as [[]|]; simpl;
    split; try assumption; now apply count_snoc.
Qed.

Lemma spawnless_socketSend id msg : spawnless (socketSend id msg).
Proof.
  intros s He. unfold socketSend, bind, getRt, emit, ret, throw.
  destruct (stateOf id (sockets (rt s))) as [[]|]; simpl;
    split; try assumption; try reflexivity; now apply count_snoc.
Qed.

Lemma spawnless_startPythonBackend : spawnless startPythonBackend.
Proof.
  intros s He. unfold startPythonBackend, bind, getMe, getRt, logError, emit, ret.
  simpl. destruct (pythonProcess (me s)); simpl; [now split|].
  rewrite He. simpl. split; [assumption|].
  rewrite !count_snoc by reflexivity. reflexivity.
Qed.

Create HintDb spawnless.
#[local] Hint Resolve spawnless_getMe spawnless_getRt spawnless_setMe
  spawnless_setTimeout spawnless_clearTimeout spawnless_newWebSocket
  spawnless_socketClose spawnless_socketSend spawnless_startPythonBackend
  : spawnless.

Ltac spawnless_step :=
  first
    [ apply spawnless_ret
    | apply spawnless_throw
    | solve [auto with spawnless]
    | apply spawnless_emit; reflexivity
    | apply spawnless_bind; [ | intro ]
    | apply spawnless_tryCatch; [ | intro ]
    | match goal with
      | |- spawnless (match ?x with _ => _ end) => destruct x
      end ].
Ltac spawnless_all := cbv zeta; repeat spawnless_step.

Lemma spawnless_scheduleReconnect : spawnless scheduleReconnect.
Proof.
  unfold scheduleReconnect, setReconnectAttempts, setReconnectTimer, log.
  spawnless_all.
Qed.
#[local] Hint Resolve spawnless_scheduleReconnect : spawnless.

Lemma spawnless_connectWebSocket : spawnless connectWebSocket.
Proof.
  unfold connectWebSocket, theConfig, setWs, log, logError. spawnless_all.
Qed.
#[local] Hint Resolve spawnless_connectWebSocket : spawnless.

Lemma spawnless_handler (r : host) (e : event) : spawnless (handler r e).
Proof.
  destruct e; cbn [handler].
  - unfold start, log. spawnless_all.
  - unfold stop, log, kill, setReconnectTimer, setWs, setPythonProcess.
    spawnless_all.
  - unfold socketNotificationReceived, setConfig. spawnless_all.
  - unfold onChildClose, log, setPythonProcess. spawnless_all.
  - destruct (pending id (timers r)) as [[|]|]; [auto with spawnless| |apply spawnless_ret].
    unfold relaunch. spawnless_all.
  - unfold onOpen, log, sendSocketNotification, setReconnectAttempts, theConfig.
    spawnless_all.
  - unfold onMessage, sendSocketNotification, logError. spawnless_all.
  - unfold onClose, log, sendSocketNotification. spawnless_all.
  - unfold onError, logError, sendSocketNotification. spawnless_all.
  - apply spawnless_ret.
Qed.

Lemma step_barren (s s' : sys) (e : event) :
  noFiles e = true -> step s e = Some s' -> barren s s'.
Proof.
  intros Hn Hstep. unfold step in Hstep.
  destruct (enabled (rt s) e); [|discriminate]. injection Hstep as <-.
  intro He. unfold dispatch.
  set (s0 := {| me := me s; rt := arrive (rt s) e; trace := trace s |}).
  assert (He0 : envFile (rt s0) = false).
  { unfold s0. simpl. destruct e; try exact He. discriminate. }
  pose proof (spawnless_handler (rt s) e s0 He0) as [H1 H2].
  destruct (handler (rt s) e s0) as [[u|x] s1]; simpl in *.
  - now split.
  - split; [assumption|]. rewrite count_snoc by reflexivity. exact H2.
Qed.

(** X10.  While the credential file is missing, no event makes the helper
    spawn the backend: a run from boot in which the files do not change has
    no spawn in its trace. *)
Theorem no_spawn_without_credential_file :
  forall (venv : bool) (okUrl : string -> bool)
         (parse : string -> option value) (es : list event) (s : sys),
    forallb noFiles es = true ->
    run es (boot false venv okUrl parse) = Some s ->
    count isSpawn (trace s) = 0%nat /\ envFile (rt s) = false.
Proof.
  intros venv okUrl parse es.
  assert (H0 : barren (boot false venv okUrl parse) (boot false venv okUrl parse))
    by (now apply barren_refl).
  assert (Hgen : forall s0 s, forallb noFiles es = true -> run es s0 = Some s ->
                              barren s0 s).
  { induction es as [|e es IH]; intros s0 s Hf Hrun; simpl in *.
    - injection Hrun as <-. now apply barren_refl.
    - apply andb_true_iff in Hf as [He Hes].
      destruct (step s0 e) as [s1|] eqn:Hs; [|discriminate].
      eapply barren_trans; [eapply step_barren; eassumption|now apply IH]. }
  intros s Hf Hrun. destruct (Hgen _ s Hf Hrun eq_refl) as [He Hc].
  split; [exact Hc|exact He].
Qed.

(** *** The theorems above at sample systems *)

Lemma launch_passes_defaults_witness :
  envFile (rt configured) = true /\
  pythonProcess (me configured) = None /\
  config (me configured) = Some defaults /\
  emitted startPythonBackend configured
  = [Log "Starting Python backend: "; Spawn 1 "python3" "camera" 0].
Proof.
  split; [reflexivity|]. split; [reflexivity|]. split; [reflexivity|].
  exact (proj1 (proj2 (launch_passes_defaults configured defaults
                         eq_refl eq_refl eq_refl))).
Defined.

Lemma crashed_backend_is_relaunched_witness :
  In 1%nat (children (rt running)) /\
  Forall (fun p => (fst p < nextId (rt running))%nat) (timers (rt running)) /\
  config (me running) = Some defaults /\
  envFile (rt running) = true /\
  exists s' : sys,
    run [EvChildClose 1 0; EvTimer (nextId (rt running))] running = Some s'
    /\ pythonProcess (me s') = Some (S (nextId (rt running))).
Proof.
  assert (Hin : In 1%nat (children (rt running))) by (now left).
  assert (Hlt : Forall (fun p => (fst p < nextId (rt running))%nat)
                  (timers (rt running))) by constructor.
  split; [exact Hin|]. split; [exact Hlt|].
  split; [reflexivity|]. split; [reflexivity|].
  destruct (crashed_backend_is_relaunched running 1 0 defaults
              Hin Hlt eq_refl eq_refl) as [s' [Hrun [_ [Hp _]]]].
  exists s'. split; assumption.
Defined.

Lemma repeated_config_is_harmless_witness :
  pythonProcess (me connectedSys) = Some 1%nat /\
  ws (me connectedSys) = Some 2%nat /\
  stateOf 2 (sockets (rt connectedSys)) = Some OPEN /\
  emitted (socketNotificationReceived "CONFIG" defaults) connectedSys = [].
Proof.
  split; [reflexivity|]. split; [reflexivity|]. split; [reflexivity|].
  exact (proj1 (proj2 (repeated_config_is_harmless connectedSys defaults 1 2
                         eq_refl eq_refl eq_refl))).
Defined.

Lemma bad_url_schedules_reconnect_witness :
  config (me badUrlSys) = Some defaults /\
  isOpen (rt badUrlSys) (ws (me badUrlSys)) = false /\
  urlOk (rt badUrlSys) (wsUrl defaults) = false /\
  reconnectAttempts (me (snd (connectWebSocket badUrlSys))) = 1.
Proof.
  split; [reflexivity|]. split; [reflexivity|]. split; [reflexivity|].
  destruct (bad_url_schedules_reconnect badUrlSys defaults
              eq_refl eq_refl eq_refl) as [_ [_ [_ [Ha _]]]].
  exact Ha.
Defined.

Lemma reconnect_timer_while_open_does_nothing_witness :
  pending 3 (timers (rt staleTimerSys)) = Some Reconnect /\
  ws (me staleTimerSys) = Some 4%nat /\
  stateOf 4 (sockets (rt staleTimerSys)) = Some OPEN /\
  option_map trace (step staleTimerSys (EvTimer 3)) = Some (trace staleTimerSys).
Proof.
  split; [reflexivity|]. split; [reflexivity|]. split; [reflexivity|].
  rewrite (reconnect_timer_while_open_does_nothing staleTimerSys 3 4
             eq_refl eq_refl eq_refl).
  reflexivity.
Defined.

Lemma open_resets_and_sends_handshake_witness :
  ws (me running) = Some 2%nat /\
  stateOf 2 (sockets (rt running)) = Some CONNECTING /\
  config (me running) = Some defaults /\
  exists s' : sys,
    step running (EvWsOpen 2) = Some s'
    /\ skipn (List.length (trace running)) (trace s')
       = [Log "WebSocket connected";
          Notify "CONNECTION_STATUS" (connectionStatus true);
          SocketSend 2 (handshake defaults)].
Proof.
  split; [reflexivity|]. split; [reflexivity|]. split; [reflexivity|].
  destruct (open_resets_and_sends_handshake running 2 defaults
              eq_refl eq_refl eq_refl) as [s' [Hstep [Htr _]]].
  exists s'. split; assumption.
Defined.

Lemma reconnect_delays_always_in_range_witness :
  exists s : sys,
    run (EvStart :: sampleFailures) sampleBoot = Some s
    /\ 0 <= reconnectAttempts (me s)
    /\ Forall delayInRange (reconnectDelays (trace s)).
Proof.
  eexists. split; [vm_compute; reflexivity|].
  apply (reconnect_delays_always_in_range true false (fun _ => true)
           (fun _ => None) (EvStart :: sampleFailures)).
  vm_compute. reflexivity.
Defined.

Lemma one_reconnect_timer_pending_witness :
  forallb notStart sampleFailures = true /\
  exists s : sys,
    run (EvStart :: sampleFailures) sampleBoot = Some s
    /\ (List.length (reconnectPending (timers (rt s))) <= 1)%nat.
Proof.
  split; [reflexivity|].
  eexists. split; [vm_compute; reflexivity|].
  apply (one_reconnect_timer_pending true false (fun _ => true)
           (fun _ => None) sampleFailures); [reflexivity|].
  vm_compute. reflexivity.
Defined.

Lemma no_spawn_without_credential_file_witness :
  forallb noFiles sampleNoEnvRun = true /\
  exists s : sys,
    run sampleNoEnvRun sampleNoEnv = Some s
    /\ count isSpawn (trace s) = 0%nat.
Proof.
  split; [reflexivity|].
  eexists. split; [vm_compute; reflexivity|].
  apply (no_spawn_without_credential_file false (fun _ => true)
           (fun _ => None) sampleNoEnvRun); [reflexivity|].
  vm_compute. reflexivity.
Defined.

End SupervisionFacts.

(* ================================================================= *)
(** ** More properties of the module *)

Module AnimationFacts.

Import Waveform Animation.
Local Open Scope num_scope.

Lemma animateWaveform_fields (cfg : Config) (now : Z) (handle : nat) (m : module)
      (cv : Canvas) :
  ctx m = true -> canvas m = Some cv ->
  let m' := fst (animateWaveform cfg now handle m) in
  ctx m' = true /\ canvas m' = Some cv /\ lastDataTime m' = lastDataTime m
  /\ connected m' = connected m
  /\ wavePhase m' = wavePhase m + animationSpeed cfg
  /\ currentAmplitude m'
     = currentAmplitude m + (targetAmplitude m - currentAmplitude m) * Fin 0.18
  /\ targetAmplitude m'
     = if Z.ltb 250 (now - lastDataTime m)
       then targetAmplitude m * Fin 0.96 else targetAmplitude m.
Proof.
  intros Hctx Hcv. unfold animateWaveform. rewrite Hctx, Hcv.
  match goal with
  | |- context [drawWaveform ?ph ?w ?h ?amp] =>
      destruct (drawWaveform ph w h amp)
  end; cbn; rewrite ?Hctx, ?Hcv; repeat split.
Qed.

(** X12.  While frames are drawn no later than 250 ms after the last
    sample, the target stays what it is and [currentAmplitude] closes 18% of
    the gap per frame: after [n] frames it is [t + (c - t) * 0.82^n]. *)
Theorem smoothing_closed_form :
  forall (cfg : Config) (es : list event) (m : module) (cv : Canvas) (c t : R),
    ctx m = true -> canvas m = Some cv ->
    currentAmplitude m = Fin c -> targetAmplitude m = Fin t ->
    Forall (freshFrame (lastDataTime m)) es ->
    currentAmplitude (run cfg es m)
      = Fin (t + (c - t) * 0.82 ^ List.length es)
    /\ targetAmplitude (run cfg es m) = Fin t.
Proof.
  intros cfg es. induction es as [|e es IH]; intros m cv c t Hctx Hcv Hc Ht Hf.
  - simpl. rewrite Hc, Ht. split; [f_equal; ring|reflexivity].
  - inversion Hf as [|e' es' He Hes]; subst.
    destruct e as [g|now n|now handle| |now handle]; try contradiction.
    cbn [freshFrame] in He.
    cbn [run fold_left step]. fold (run cfg es (fst (animateWaveform cfg now handle m))).
    destruct (animateWaveform_fields cfg now handle m cv Hctx Hcv)
      as [Hctx' [Hcv' [Hl' [_ [_ [Hc' Ht']]]]]].
    assert (Hidle : Z.ltb 250 (now - lastDataTime m) = false)
      by (apply Z.ltb_ge; exact He).
    rewrite Hidle, Ht in Ht'. rewrite Hc, Ht in Hc'. cbn [Num.add Num.sub Num.neg Num.mul] in Hc'.
    rewrite <- Hl' in Hes.
    destruct (IH _ cv _ t Hctx' Hcv' Hc' Ht' Hes) as [IHc IHt].
    split; [|exact IHt]. rewrite IHc. apply f_equal.
    cbn [List.length]. rewrite <- tech_pow_Rmult.
    set (q := pow _ (List.length es)). lra.
Qed.

(** X13.  Frames drawn more than 250 ms after the last sample each
    multiply the target by 0.96: after [n] of them it is [t * 0.96^n], and
    the idle clock is not reset. *)
Theorem idle_target_decays :
  forall (cfg : Config) (es : list event) (m : module) (cv : Canvas) (t : R),
    ctx m = true -> canvas m = Some cv ->
    targetAmplitude m = Fin t ->
    Forall (idleFrame (lastDataTime m)) es ->
    targetAmplitude (run cfg es m) = Fin (t * 0.96 ^ List.length es)
    /\ lastDataTime (run cfg es m) = lastDataTime m.
Proof.
  intros cfg es. induction es as [|e es IH]; intros m cv t Hctx Hcv Ht Hf.
  - simpl. rewrite Ht. split; [f_equal; ring|reflexivity].
  - inversion Hf as [|e' es' He Hes]; subst.
    destruct e as [g|now n|now handle| |now handle]; try contradiction.
    cbn [idleFrame] in He.
    cbn [run fold_left step]. fold (run cfg es (fst (animateWaveform cfg now handle m))).
    destruct (animateWaveform_fields cfg now handle m cv Hctx Hcv)
      as [Hctx' [Hcv' [Hl' [_ [_ [_ Ht']]]]]].
    assert (Hidle : Z.ltb 250 (now - lastDataTime m) = true)
      by (apply Z.ltb_lt; exact He).
    rewrite Hidle, Ht in Ht'. cbn [Num.add Num.sub Num.neg Num.mul] in Ht'.
    rewrite <- Hl' in Hes.
    destruct (IH _ cv _ Hctx' Hcv' Ht' Hes) as [IHt IHl].
    split; [|now rewrite IHl]. rewrite IHt. apply f_equal.
    cbn [List.length]. rewrite <- tech_pow_Rmult.
    set (q := pow _ (List.length es)). lra.
Qed.

(** X14.  Every frame drawn on a canvas adds [animationSpeed] to the
    phase, idle or not: after [n] frames it is [p + n * speed]. *)
Theorem phase_advances_each_frame :
  forall (cfg : Config) (es : list event) (m : module) (cv : Canvas) (p v : R),
    ctx m = true -> canvas m = Some cv ->
    wavePhase m = Fin p -> animationSpeed cfg = Fin v ->
    Forall isFrame es ->
    wavePhase (run cfg es m) = Fin (p + INR (List.length es) * v).
Proof.
  intros cfg es. induction es as [|e es IH]; intros m cv p v Hctx Hcv Hp Hv Hf.
  - simpl. rewrite Hp. f_equal. ring.
  - inversion Hf as [|e' es' He Hes]; subst.
    destruct e as [g|now n|now handle| |now handle]; try contradiction.
    cbn [run fold_left step]. fold (run cfg es (fst (animateWaveform cfg now handle m))).
    destruct (animateWaveform_fields cfg now handle m cv Hctx Hcv)
      as [Hctx' [Hcv' [_ [_ [Hp' _]]]]].
    rewrite Hp, Hv in Hp'. cbn [Num.add Num.sub Num.neg Num.mul] in Hp'.
    rewrite (IH _ cv _ v Hctx' Hcv' Hp' Hv Hes). apply f_equal.
    cbn [List.length]. rewrite S_INR. ring.
Qed.

Lemma tAt_unit (w i : nat) :
  (2 <= w)%nat -> (i < Nat.min 200 w)%nat ->
  (0 <= Reference.tAt w i <= 1)%R.
Proof.
  intros Hw Hi. unfold Reference.tAt, Reference.sampleCount.
  assert (Hn : (2 <= Nat.min 200 w)%nat) by lia.
  apply le_INR in Hn. change (INR 2) with (1 + 1)%R in Hn.
  assert (Hi' : (S i <= Nat.min 200 w)%nat) by lia.
  apply le_INR in Hi'. rewrite S_INR in Hi'.
  pose proof (pos_INR i) as H0.
  set (n := INR (Nat.min 200 w)) in *.
  assert (Hd : (0 < n - 1)%R) by lra.
  split.
  - apply Rmult_le_pos; [assumption|]. left. now apply Rinv_0_lt_compat.
  - apply (Rmult_le_reg_r (n - 1)); [assumption|].
    unfold Rdiv. rewrite Rmult_assoc, Rinv_l by lra. lra.
Qed.

Lemma waveAt_bound (p : R) (w i : nat) :
  (-1.07 <= Reference.waveAt p w i <= 1.07)%R.
Proof.
  unfold Reference.waveAt.
  pose proof (SIN_bound (p + Reference.tAt w i * (4 * PI))).
  pose proof (SIN_bound (1.7 * p + Reference.tAt w i * (7 * PI))).
  pose proof (SIN_bound (0.8 * p + Reference.tAt w i * (2 * PI))).
  lra.
Qed.

Lemma realMargin_unit (a : R) : (0 <= a <= 1)%R -> Reference.realMargin a = 12%R.
Proof. intro H. unfold Reference.realMargin. apply Rmax_left. lra. Qed.

(** X16.  For an amplitude in [[0, 1]] on a canvas at least 24 pixels wide,
    every point of the polyline is finite and inside the canvas:
    [12 <= x <= width - 12] and [0 <= y <= height].  The first point is at
    [x = 12] and the last at [x = width - 12]. *)
Theorem points_stay_inside_canvas :
  forall (a p : R) (w h : nat),
    (0 <= a <= 1)%R ->
    (24 <= w)%nat ->
    Forall (inside w h) (wavePoints (Fin p) w h (Fin a))
    /\ x (wavePoint (Fin p) w h (Fin a) 0) = Fin 12
    /\ x (wavePoint (Fin p) w h (Fin a) (numPoints w - 1)) = Fin (INR w - 12).
Proof.
  intros a p w h Ha Hw.
  assert (Hw2 : (2 <= w)%nat) by lia.
  assert (Hw24 : (24 <= INR w)%R).
  { apply le_INR in Hw. replace (INR 24) with 24%R in Hw by (simpl; lra). exact Hw. }
  pose proof (pos_INR h) as Hh.
  split; [|split].
  - unfold wavePoints. apply Forall_forall. intros pt Hin.
    apply in_map_iff in Hin as [i [<- Hi]]. apply in_seq in Hi.
    rewrite (WaveformFacts.wavePoint_real a p w h i Hw2).
    unfold inside. cbn [x y].
    unfold Reference.xAt, Reference.yAt. rewrite (realMargin_unit a Ha).
    destruct (tAt_unit w i Hw2) as [Ht0 Ht1]; [unfold numPoints in Hi; lia|].
    pose proof (waveAt_bound p w i) as Hwv.
    set (t := Reference.tAt w i) in *. set (wv := Reference.waveAt p w i) in *.
    assert (Hwa : (-1.07 <= wv * a <= 1.07)%R) by nra.
    split; [nra|]. nra.
  - rewrite (WaveformFacts.wavePoint_real a p w h 0 Hw2). cbn [x].
    apply f_equal. unfold Reference.xAt, Reference.tAt.
    rewrite (realMargin_unit a Ha). change (INR 0) with 0%R. unfold Rdiv. ring.
  - rewrite (WaveformFacts.wavePoint_real a p w h _ Hw2). cbn [x].
    apply f_equal. unfold Reference.xAt, Reference.tAt, Reference.sampleCount, numPoints.
    rewrite (realMargin_unit a Ha).
    assert (Hn : (2 <= Nat.min 200 w)%nat) by lia.
    rewrite minus_INR by lia. change (INR 1) with 1%R.
    apply le_INR in Hn. change (INR 2) with (1 + 1)%R in Hn.
    set (n := INR (Nat.min 200 w)) in *.
    unfold Rdiv. rewrite Rinv_r by lra. ring.
Qed.

Lemma step_without_context (cfg : Config) (m : module) (e : event) :
  ctx m = false -> isLoopEvent e ->
  ctx (step cfg m e) = false
  /\ smoother (step cfg m e) = smoother m
  /\ canvas (step cfg m e) = canvas m
  /\ forallb (fun o => negb (isDraw o)) (stepOut cfg m e) = true.
Proof.
  intros Hctx He.
  destruct e as [g|now n|now handle| |now handle]; try contradiction;
    cbn [step stepOut].
  - unfold animateWaveform. rewrite Hctx. cbn. now rewrite Hctx.
  - unfold suspend. destruct (animationFrame m); cbn; now rewrite Hctx.
  - unfold resume, animateWaveform. rewrite Hctx.
    destruct (animationFrame m); cbn; now rewrite Hctx.
Qed.

(** X17.  While the module has no drawing context, frames, suspend and
    resume draw nothing and leave the smoother as it is: the phase does not
    advance and the amplitudes do not move. *)
Theorem frames_without_context_only_reschedule :
  forall (cfg : Config) (es : list event) (m : module),
    ctx m = false ->
    Forall isLoopEvent es ->
    smoother (run cfg es m) = smoother m
    /\ ctx (run cfg es m) = false
    /\ canvas (run cfg es m) = canvas m
    /\ forallb (fun o => negb (isDraw o)) (outputs cfg es m) = true.
Proof.
  intros cfg es. induction es as [|e es IH]; intros m Hctx Hes.
  - now repeat split.
  - inversion Hes as [|e' es' He Hes']; subst.
    destruct (step_without_context cfg m e Hctx He) as [Hc [Hs [Hcv Ho]]].
    destruct (IH _ Hc Hes') as [IHs [IHc [IHcv IHo]]].
    cbn [run fold_left outputs]. fold (run cfg es (step cfg m e)).
    repeat split.
    + now rewrite IHs.
    + exact IHc.
    + now rewrite IHcv.
    + rewrite forallb_app, Ho, IHo. reflexivity.
Qed.

(** X18.  On a canvas of width 0 a frame clears the canvas, advances the
    state and then throws on [points[0]] before asking for the next frame.
    [this.animationFrame] keeps its old handle, so [resume] does nothing:
    the animation does not come back. *)
Theorem zero_width_canvas_stops_the_loop :
  forall (cfg : Config) (now now' : Z) (handle handle' f : nat)
         (m : module) (h : nat),
    ctx m = true ->
    canvas m = Some {| canvasWidth := 0; canvasHeight := h |} ->
    animationFrame m = Some f ->
    snd (animateWaveform cfg now handle m) = [Draw (ClearRect 0 h); Throws]
    /\ animationFrame (fst (animateWaveform cfg now handle m)) = Some f
    /\ wavePhase (fst (animateWaveform cfg now handle m))
       = wavePhase m + animationSpeed cfg
    /\ resume cfg now' handle' (fst (animateWaveform cfg now handle m))
       = (fst (animateWaveform cfg now handle m), []).
Proof.
  intros cfg now now' handle handle' f m h Hctx Hcv Hf.
  assert (Hrun : animateWaveform cfg now handle m
                 = ({| canvas := canvas m; ctx := ctx m;
                       animationFrame := animationFrame m;
                       connected := connected m;
                       wavePhase := wavePhase m + animationSpeed cfg;
                       currentAmplitude :=
                         currentAmplitude m
                         + (targetAmplitude m - currentAmplitude m) * Fin 0.18;
                       targetAmplitude :=
                         if Z.ltb 250 (now - lastDataTime m)
                         then targetAmplitude m * Fin 0.96
                         else targetAmplitude m;
                       lastDataTime := lastDataTime m |},
                    [Draw (ClearRect 0 h); Throws])).
  { unfold animateWaveform. rewrite Hctx, Hcv. reflexivity. }
  rewrite Hrun. cbn [fst snd animationFrame wavePhase].
  repeat split; try assumption.
  unfold resume. cbn [animationFrame]. now rewrite Hf.
Qed.

Lemma drawWaveform_some (phase amplitude : num) (w h : nat) :
  (1 <= w)%nat ->
  exists (glow : list drawcmd) (first : point),
    drawWaveform phase w h amplitude
    = Some (glow ++ [Stroke false (lineWidth amplitude)
                       (wavePoints phase w h amplitude);
                     FillArc first (lineWidth amplitude / Fin 2);
                     FillArc (last (wavePoints phase w h amplitude) first)
                       (lineWidth amplitude / Fin 2)])%list.
Proof.
  intro Hw. unfold drawWaveform.
  destruct (wavePoints phase w h amplitude) as [|first rest] eqn:Hpts.
  - exfalso. apply (f_equal (@List.length _)) in Hpts.
    unfold wavePoints, numPoints in Hpts.
    rewrite length_map, length_seq in Hpts. cbn [List.length] in Hpts. lia.
  - eexists. exists first. reflexivity.
Qed.

(** X19.  [suspend] cancels the pending frame and leaves the smoother
    alone; a second [suspend] does nothing; [resume] while the loop runs does
    nothing.  [resume] after [suspend], without a context or on a canvas at
    least one pixel wide, asks for exactly one frame and stores its
    handle. *)
Theorem suspend_resume_restarts_once :
  forall (cfg : Config) (now : Z) (handle f : nat) (m : module),
    animationFrame m = Some f ->
    (ctx m = false
     \/ exists cv, canvas m = Some cv /\ (1 <= canvasWidth cv)%nat) ->
    snd (suspend m) = [CancelAnimationFrame f]
    /\ smoother (fst (suspend m)) = smoother m
    /\ suspend (fst (suspend m)) = (fst (suspend m), [])
    /\ resume cfg now handle m = (m, [])
    /\ animationFrame (fst (resume cfg now handle (fst (suspend m)))) = Some handle
    /\ List.length
         (filter (fun o => match o with RequestAnimationFrame _ => true | _ => false end)
            (snd (resume cfg now handle (fst (suspend m))))) = 1%nat.
Proof.
  intros cfg now handle f m Hf Hsurf.
  unfold suspend, resume. rewrite Hf. cbn [fst snd].
  set (m0 := setAnimationFrame m None).
  assert (H0c : ctx m0 = ctx m) by reflexivity.
  assert (H0v : canvas m0 = canvas m) by reflexivity.
  assert (H0f : animationFrame m0 = None) by reflexivity.
  rewrite H0f. do 4 (split; [reflexivity|]).
  clearbody m0.
  unfold animateWaveform.
  destruct Hsurf as [Hno|[cv [Hcv Hw]]].
  - rewrite H0c, Hno. cbn. split; reflexivity.
  - rewrite H0v, Hcv. destruct (ctx m0); [|cbn; split; reflexivity].
    match goal with
    | |- context [drawWaveform ?ph ?w ?h ?amp] =>
        destruct (drawWaveform_some ph amp w h Hw) as [glow [first ->]]
    end.
    cbn [fst snd setAnimationFrame animationFrame]. split; [reflexivity|].
    cbn [filter]. rewrite filter_app. cbn [filter].
    rewrite length_app. cbn [List.length].
    rewrite map_app. rewrite filter_app, length_app.
    assert (Hz : forall l, List.length
                   (filter (fun o => match o with
                                     | RequestAnimationFrame _ => true
                                     | _ => false
                                     end) (map Draw l)) = 0%nat).
    { induction l as [|d l IH]; [reflexivity|exact IH]. }
    rewrite !Hz. reflexivity.
Qed.

(** X15.  An idle frame on a canvas at least one pixel wide draws the main
    stroke with the larger of the smoothed amplitude and the breathing
    amplitude [idle * (0.6 + 0.4 * sin(0.6 * phase))]: at least a fifth of
    the idle amplitude and at most the larger of the smoothed and the idle
    amplitude. *)
Theorem idle_frame_draws_at_least_the_breath :
  forall (cfg : Config) (now : Z) (handle : nat) (m : module) (cv : Canvas)
         (c t p idle : R),
    ctx m = true -> canvas m = Some cv -> (1 <= canvasWidth cv)%nat ->
    currentAmplitude m = Fin c -> targetAmplitude m = Fin t ->
    wavePhase m = Fin p -> idleAmplitude cfg = Fin idle ->
    (0 <= idle)%R ->
    (250 < now - lastDataTime m)%Z ->
    exists (e : R) (path : list point),
      In (Draw (Stroke false (lineWidth (Fin e)) path))
         (snd (animateWaveform cfg now handle m))
      /\ e = Rmax (c + (t - c) * 0.18)
               (idle * (0.6 + 0.4 * Rtrigo_def.sin (p * 0.6)))
      /\ (0.2 * idle <= e)%R
      /\ (c + (t - c) * 0.18 <= e)%R
      /\ (e <= Rmax (c + (t - c) * 0.18) idle)%R.
Proof.
  intros cfg now handle m cv c t p idle Hctx Hcv Hw Hc Ht Hp Hi Hidle0 Hidle.
  apply Z.ltb_lt in Hidle.
  unfold animateWaveform. rewrite Hctx, Hcv, Hidle, Hc, Ht, Hp, Hi.
  cbn [Num.add Num.sub Num.neg Num.mul Num.sin].
  rewrite WaveformFacts.max_fin.
  match goal with
  | |- context [drawWaveform ?ph ?w ?h ?amp] =>
      destruct (drawWaveform_some ph amp w h Hw) as [glow [first ->]]
  end.
  cbn [snd].
  pose proof (SIN_bound (p * 0.6)) as Hs.
  set (s := Rtrigo_def.sin (p * 0.6)) in *.
  exists (Rmax (c + (t + - c) * 0.18) (idle * (0.6 + 0.4 * s))).
  eexists. split.
  - right. apply in_or_app. left. rewrite map_app. apply in_or_app. right.
    left. reflexivity.
  - replace (c + (t - c) * 0.18)%R with (c + (t + - c) * 0.18)%R by ring.
    split; [reflexivity|].
    assert (Hb : (0.2 * idle <= idle * (0.6 + 0.4 * s) <= idle)%R) by nra.
    repeat split.
    + eapply Rle_trans; [apply Hb|apply Rmax_r].
    + apply Rmax_l.
    + apply Rmax_lub; [apply Rmax_l|].
      eapply Rle_trans; [apply Hb|apply Rmax_r].
Qed.

(** *** The theorems above at sample modules *)

Lemma smoothing_closed_form_witness :
  Forall (freshFrame (lastDataTime fed)) [EvFrame 30 2; EvFrame 270 3] /\
  currentAmplitude (run defaults [EvFrame 30 2; EvFrame 270 3] fed)
  = Fin (0.8 + (0 - 0.8) * 0.82 ^ 2).
Proof.
  assert (H : Forall (freshFrame (lastDataTime fed))
                [EvFrame 30 2; EvFrame 270 3]).
  { repeat constructor; cbn; lia. }
  split; [exact H|].
  exact (proj1 (smoothing_closed_form defaults [EvFrame 30 2; EvFrame 270 3]
                  fed {| canvasWidth := 300; canvasHeight := 100 |} 0 0.8
                  eq_refl eq_refl eq_refl eq_refl H)).
Defined.

Lemma idle_target_decays_witness :
  Forall (idleFrame (lastDataTime fed)) [EvFrame 271 2; EvFrame 400 3] /\
  targetAmplitude (run defaults [EvFrame 271 2; EvFrame 400 3] fed)
  = Fin (0.8 * 0.96 ^ 2).
Proof.
  assert (H : Forall (idleFrame (lastDataTime fed))
                [EvFrame 271 2; EvFrame 400 3]).
  { repeat constructor; cbn; lia. }
  split; [exact H|].
  exact (proj1 (idle_target_decays defaults [EvFrame 271 2; EvFrame 400 3]
                  fed {| canvasWidth := 300; canvasHeight := 100 |} 0.8
                  eq_refl eq_refl eq_refl H)).
Defined.

Lemma phase_advances_each_frame_witness :
  Forall isFrame [EvFrame 16 2; EvFrame 32 3; EvFrame 48 4] /\
  wavePhase (run defaults [EvFrame 16 2; EvFrame 32 3; EvFrame 48 4] onCanvas)
  = Fin (0 + INR 3 * 0.35).
Proof.
  assert (H : Forall isFrame [EvFrame 16 2; EvFrame 32 3; EvFrame 48 4]).
  { repeat constructor. }
  split; [exact H|].
  exact (phase_advances_each_frame defaults
           [EvFrame 16 2; EvFrame 32 3; EvFrame 48 4] onCanvas
           {| canvasWidth := 300; canvasHeight := 100 |} 0 0.35
           eq_refl eq_refl eq_refl eq_refl H).
Defined.

Lemma idle_frame_draws_at_least_the_breath_witness :
  (0 <= 0.06)%R /\ (250 < 400 - lastDataTime onCanvas)%Z /\
  exists (e : R) (path : list point),
    In (Draw (Stroke false (lineWidth (Fin e)) path))
       (snd (animateWaveform defaults 400 2 onCanvas))
    /\ (0.2 * 0.06 <= e)%R.
Proof.
  assert (H0 : (0 <= 0.06)%R) by lra.
  assert (Hi : (250 < 400 - lastDataTime onCanvas)%Z) by (cbn; lia).
  split; [exact H0|]. split; [exact Hi|].
  destruct (idle_frame_draws_at_least_the_breath defaults 400 2 onCanvas
              {| canvasWidth := 300; canvasHeight := 100 |} 0 0 0 0.06
              eq_refl eq_refl ltac:(cbn; lia)
              eq_refl eq_refl eq_refl eq_refl H0 Hi)
    as [e [path [Hin [_ [Hlo _]]]]].
  exists e, path. split; assumption.
Defined.

Lemma points_stay_inside_canvas_witness :
  (0 <= 0.8 <= 1)%R /\ (24 <= 300)%nat /\
  Forall (inside 300 100) (wavePoints (Fin 1.57) 300 100 (Fin 0.8)).
Proof.
  assert (Ha : (0 <= 0.8 <= 1)%R) by lra.
  assert (Hw : (24 <= 300)%nat) by lia.
  split; [exact Ha|]. split; [exact Hw|].
  exact (proj1 (points_stay_inside_canvas 0.8 1.57 300 100 Ha Hw)).
Defined.

Lemma frames_without_context_only_reschedule_witness :
  ctx started = false /\
  Forall isLoopEvent [EvFrame 16 2; EvSuspend; EvResume 40 3] /\
  smoother (run defaults [EvFrame 16 2; EvSuspend; EvResume 40 3] started)
  = smoother started.
Proof.
  assert (H : Forall isLoopEvent [EvFrame 16 2; EvSuspend; EvResume 40 3]).
  { repeat constructor. }
  split; [reflexivity|]. split; [exact H|].
  exact (proj1 (frames_without_context_only_reschedule defaults _ started
                  eq_refl H)).
Defined.

Lemma zero_width_canvas_stops_the_loop_witness :
  ctx onZeroWidth = true /\
  canvas onZeroWidth = Some {| canvasWidth := 0; canvasHeight := 100 |} /\
  animationFrame onZeroWidth = Some 1%nat /\
  snd (animateWaveform zeroWidth 16 2 onZeroWidth)
  = [Draw (ClearRect 0 100); Throws].
Proof.
  split; [reflexivity|]. split; [reflexivity|]. split; [reflexivity|].
  exact (proj1 (zero_width_canvas_stops_the_loop zeroWidth 16 40 2 3 1
                  onZeroWidth 100 eq_refl eq_refl eq_refl)).
Defined.

Lemma suspend_resume_restarts_once_witness :
  animationFrame started = Some 1%nat /\
  ctx started = false /\
  snd (suspend started) = [CancelAnimationFrame 1].
Proof.
  split; [reflexivity|]. split; [reflexivity|].
  exact (proj1 (suspend_resume_restarts_once defaults 40 2 1 started
                  eq_refl (or_introl eq_refl))).
Defined.

End AnimationFacts.

(* ================================================================= *)
(** ** The connection status, from the helper to the module *)

Module StatusFacts.

Import NodeHelper.
Local Open Scope string_scope.
Local Open Scope Z_scope.

Lemma onOpen_trace (s : sys) :
  exists tail : list action,
    (tail = [] \/ exists id msg, tail = [SocketSend id msg]) /\
    trace (snd (onOpen s))
    = (trace s
       ++ [Log "WebSocket connected";
           Notify "CONNECTION_STATUS" (connectionStatus true)]
       ++ tail)%list.
Proof.
  unfold onOpen, bind, log, sendSocketNotification, emit,
    setReconnectAttempts, bind, getMe, setMe, theConfig, socketSend,
    bind, getMe, getRt, throw, ret.
  simpl.
  destruct (ws (me s)) as [id|]; simpl.
  - destruct (config (me s)) as [c|]; simpl.
    + destruct (stateOf id (sockets (rt s))) as [[]|]; simpl;
        repeat rewrite <- app_assoc; simpl;
        try (exists []; split; [now left|reflexivity]).
      eexists. split; [right; eexists; eexists; reflexivity|reflexivity].
    + exists []. split; [now left|]. now rewrite <- app_assoc.
  - exists []. split; [now left|]. now rewrite <- app_assoc.
Qed.

Lemma onError_trace (s : sys) :
  trace (snd (onError s))
  = (trace s ++ [LogError "WebSocket error:";
                 Notify "CONNECTION_STATUS" (connectionStatus false)])%list.
Proof.
  unfold onError, bind, logError, sendSocketNotification, emit. simpl.
  now rewrite <- app_assoc.
Qed.

(** X11.  What the helper sends on a close, an error and an open, handed to
    the module, sets the module's [connected] flag to false, false and true;
    the Animation.smoother (phase, both amplitudes, the idle clock) is not touched. *)
Theorem connection_status_reaches_the_module :
  forall (cfg : Waveform.Config) (now : Z) (s : sys) (m : Waveform.module),
    (exists m1, Bridge.receivedAll cfg now (emitted onClose s) m = Some m1
                /\ Waveform.connected m1 = false /\ Animation.smoother m1 = Animation.smoother m)
    /\ (exists m2, Bridge.receivedAll cfg now (emitted onError s) m = Some m2
                   /\ Waveform.connected m2 = false /\ Animation.smoother m2 = Animation.smoother m)
    /\ (exists m3, Bridge.receivedAll cfg now (emitted onOpen s) m = Some m3
                   /\ Waveform.connected m3 = true /\ Animation.smoother m3 = Animation.smoother m).
Proof.
  intros cfg now s m. split; [|split].
  - destruct (NodeHelperFacts.onClose_trace s) as [cleared [Hc [Htr _]]].
    rewrite (NodeHelperFacts.emitted_of_trace _ _ _ Htr).
    destruct Hc as [->|[t ->]]; eexists;
      (split; [reflexivity|split; reflexivity]).
  - rewrite (NodeHelperFacts.emitted_of_trace _ _ _ (onError_trace s)).
    eexists. split; [reflexivity|split; reflexivity].
  - destruct (onOpen_trace s) as [tail [Hc Htr]].
    rewrite (NodeHelperFacts.emitted_of_trace _ _ _ Htr).
    destruct Hc as [->|[id [msg ->]]]; eexists;
      (split; [reflexivity|split; reflexivity]).
Qed.

End StatusFacts.
